(** * Eirini persi broker: the volume broker and its lifecycle operations

    A shallow embedding of [broker/broker.go].  The broker keeps no state
    of its own: every operation reads or writes persistent volume claims
    through the Kubernetes client.  The client is an interface in the Go
    code and a type class here; the JSON decoder and the quantity parser
    are libraries and are taken as a second interface.  Operations thread
    the client explicitly and return Go's pair of a result and an error. *)

From Stdlib Require Import Ascii.
From stdpp Require Import base option strings list gmap.

Open Scope string_scope.

(** ** Go maps

    A Go [map[string]string] is [nil] or a table.  Reading and [len]
    accept [nil]; [delete] on [nil] does nothing. *)

Abbreviation GoMap := (option (gmap string string)).

(** [v, ok := m[k]] *)
Definition map_index (m : GoMap) (k : string) : option string :=
  match m with
  | None => None
  | Some t => t !! k
  end.

(** [len(m)] *)
Definition map_len (m : GoMap) : nat :=
  match m with
  | None => 0
  | Some t => size t
  end.

(** [delete(m, k)] *)
Definition map_delete (m : GoMap) (k : string) : GoMap :=
  match m with
  | None => None
  | Some t => Some (delete k t)
  end.

(** ** Errors *)

(** [metav1.StatusReason], the reasons the code and the tracker use. *)
Inductive StatusReason :=
| StatusReasonUnknown
| StatusReasonNotFound
| StatusReasonAlreadyExists
| StatusReasonBadRequest
| StatusReasonConflict
| StatusReasonInternalError.

(** Go's [error] values that reach the broker: the four sentinel errors
    of brokerapi, [errors.New], [errors.Wrap], the API status errors of
    apimachinery, and errors of other libraries (JSON, quantities,
    transport). *)
Inductive error :=
| ErrInstanceAlreadyExists
| ErrInstanceDoesNotExist
| ErrBindingAlreadyExists
| ErrBindingDoesNotExist
| errors_New (message : string)
| errors_Wrap (cause : error) (message : string)
| StatusError (reason : StatusReason) (message : string)
| LibraryError (message : string).

(** The [Error()] method. *)
Fixpoint Error (e : error) : string :=
  match e with
  | ErrInstanceAlreadyExists => "instance already exists"
  | ErrInstanceDoesNotExist => "instance does not exist"
  | ErrBindingAlreadyExists => "binding already exists"
  | ErrBindingDoesNotExist => "binding does not exist"
  | errors_New m => m
  | errors_Wrap c m => m +:+ ": " +:+ Error c
  | StatusError _ m => m
  | LibraryError m => m
  end.

Module apierrors.
(** [ReasonForError]: only a status error carries a reason; a wrapped
    error is not looked into. *)
Definition ReasonForError (err : option error) : StatusReason :=
  match err with
  | Some (StatusError r _) => r
  | _ => StatusReasonUnknown
  end.

Definition IsNotFound (err : option error) : bool :=
  match ReasonForError err with
  | StatusReasonNotFound => true
  | _ => false
  end.
End apierrors.

(** The error kinds the specification names, as the code builds them. *)
Definition PlanIDRequired : error := errors_New "plan_id required".
Definition PlanNotRecognized : error := errors_New "plan_id not recognized".
Definition PlanHasNoDefaultSize : error :=
  errors_New "plan doesn't have a default size".
Definition InvalidResourceState : error :=
  errors_New "pvc has a nil storage class".
Definition InvalidParameters (cause : error) : error :=
  errors_Wrap cause "error unmarshaling json user configuration".
Definition InvalidQuantity (cause : error) : error :=
  errors_Wrap cause "invalid quantity string".
Definition ProvisionFailed (cause : error) : error :=
  errors_Wrap cause "error provisioning".

(** ** Configuration ([config] package) *)

Module config.
(** Modelled from the spec: the declaration of [Plan] that
    [broker.go] compiles against.  The declaration under [src/] has
    neither [DefaultSize] nor [DefaultAccessMode], and its
    [StorageClass] is a plain string, while [Provision] reads
    [plan.DefaultSize] and [plan.DefaultAccessMode] and stores
    [plan.StorageClass] into the claim's string pointer
    [StorageClassName].  The fields are those of section 3 of the
    specification; [StorageClass] is a string pointer ([None] is
    [nil]). *)
Record Plan := {
  ID : string;
  Name : string;
  Description : string;
  StorageClass : option string;
  Free : bool;
  DefaultSize : string;
  DefaultAccessMode : string;
}.

(** [Description_], and below [ServiceConfiguration_] and
    [AuthConfiguration_], are the Go fields without the underscore: the
    plain names are taken, by the field of [Plan] and by the two record
    types. *)
Record ServiceConfiguration := {
  ServiceName : string;
  ServiceID : string;
  Plans : list Plan;
  Description_ : string;
  LongDescription : string;
  ProviderDisplayName : string;
  DocumentationURL : string;
  SupportURL : string;
  DisplayName : string;
  IconImage : string;
}.

Record AuthConfiguration := {
  Password : string;
  Username : string;
}.

Record Config := {
  ServiceConfiguration_ : ServiceConfiguration;
  AuthConfiguration_ : AuthConfiguration;
  Host : string;
  Port : string;
  Namespace : string;
}.
End config.

(** ** Kubernetes objects *)

Module resource.
Inductive Format := DecimalExponent | BinarySI | DecimalSI.

(** [resource.Quantity] in its integer form: [value * 10 ^ scale],
    printed in [format]. *)
Record Quantity := {
  value : Z;
  scale : Z;
  format : Format;
}.
End resource.

Module metav1.
Record ObjectMeta := {
  Name : string;
  Namespace : string;
  Labels : GoMap;
  Annotations : GoMap;
}.
End metav1.

Module corev1.
(** [ResourceRequirements] with its [Requests] list, a map from
    resource names to quantities. *)
Record ResourceRequirements := {
  Requests : gmap string resource.Quantity;
}.

Record PersistentVolumeClaimSpec := {
  AccessModes : list string;
  Resources : ResourceRequirements;
  StorageClassName : option string;
}.

Record PersistentVolumeClaim := {
  ObjectMeta : metav1.ObjectMeta;
  Spec : PersistentVolumeClaimSpec;
}.

(** Promoted fields of the embedded [ObjectMeta]. *)
Definition Name (pvc : PersistentVolumeClaim) : string :=
  metav1.Name (ObjectMeta pvc).
Definition Annotations (pvc : PersistentVolumeClaim) : GoMap :=
  metav1.Annotations (ObjectMeta pvc).
Definition Labels (pvc : PersistentVolumeClaim) : GoMap :=
  metav1.Labels (ObjectMeta pvc).

(** [pvc.Annotations = m] *)
Definition set_Annotations (pvc : PersistentVolumeClaim) (m : GoMap)
  : PersistentVolumeClaim :=
  {| ObjectMeta :=
       {| metav1.Name := metav1.Name (ObjectMeta pvc);
          metav1.Namespace := metav1.Namespace (ObjectMeta pvc);
          metav1.Labels := metav1.Labels (ObjectMeta pvc);
          metav1.Annotations := m |};
     Spec := Spec pvc |}.
End corev1.

(** ** The Kubernetes client

    [KubeClient.CoreV1().PersistentVolumeClaims(namespace)] offers [Get],
    [Create], [Update] and [Delete].  [S] is the state behind the client
    (the cluster).  [Get] reads; the other three return Go's error
    ([None] is [nil]) and the next state.  The claim that [Create] and
    [Update] also return is dropped by every caller. *)

Module kubernetes.
Class PersistentVolumeClaimInterface (S : Type) := {
  Get : S → string → string → error + corev1.PersistentVolumeClaim;
  Create : S → string → corev1.PersistentVolumeClaim → option error * S;
  Update : S → string → corev1.PersistentVolumeClaim → option error * S;
  Delete : S → string → string → option error * S;
}.

(** The requests a client has been sent, for statements about which
    calls an operation makes. *)
Inductive Call :=
| CallGet (namespace name : string)
| CallCreate (namespace : string) (pvc : corev1.PersistentVolumeClaim)
| CallUpdate (namespace : string) (pvc : corev1.PersistentVolumeClaim)
| CallDelete (namespace name : string).

(** A client handle: the cluster state and the requests sent so far,
    oldest first. *)
Record Interface (S : Type) := {
  cluster : S;
  calls : list Call;
}.
Arguments cluster {S} _.
Arguments calls {S} _.

Definition sent {S} (k : Interface S) (c : Call) (s : S) : Interface S :=
  {| cluster := s; calls := calls k ++ [c] |}.

Section requests.
Context {S : Type} `{!PersistentVolumeClaimInterface S}.

Definition doGet (k : Interface S) (ns name : string)
  : (error + corev1.PersistentVolumeClaim) * Interface S :=
  (Get (cluster k) ns name, sent k (CallGet ns name) (cluster k)).

Definition doCreate (k : Interface S) (ns : string)
    (pvc : corev1.PersistentVolumeClaim) : option error * Interface S :=
  let '(err, s) := Create (cluster k) ns pvc in
  (err, sent k (CallCreate ns pvc) s).

Definition doUpdate (k : Interface S) (ns : string)
    (pvc : corev1.PersistentVolumeClaim) : option error * Interface S :=
  let '(err, s) := Update (cluster k) ns pvc in
  (err, sent k (CallUpdate ns pvc) s).

Definition doDelete (k : Interface S) (ns name : string)
  : option error * Interface S :=
  let '(err, s) := Delete (cluster k) ns name in
  (err, sent k (CallDelete ns name) s).
End requests.
End kubernetes.

(** ** The broker API types ([brokerapi] package)

    Each struct has the fields the broker or its tests touch.  The
    request structs that no operation reads keep their identifying
    fields only. *)

Module brokerapi.

Module ServicePlan.
(** [Free] is a pointer to a boolean: an address in the heap of
    boolean cells below, or [None] for [nil]. *)
Record t := {
  ID : string;
  Name : string;
  Description : string;
  Free : option nat;
}.
Definition zero : t :=
  {| ID := ""; Name := ""; Description := ""; Free := None |}.
End ServicePlan.

Module ServiceMetadata.
Record t := {
  DisplayName : string;
  ImageUrl : string;
  LongDescription : string;
  ProviderDisplayName : string;
  DocumentationUrl : string;
  SupportUrl : string;
}.
End ServiceMetadata.

Inductive RequiredPermission := PermissionVolumeMount.

Module Service.
Record t := {
  ID : string;
  Name : string;
  Description : string;
  Bindable : bool;
  Tags : list string;
  Plans : list ServicePlan.t;
  Requires : list RequiredPermission;
  Metadata : option ServiceMetadata.t;
}.
End Service.

Module ProvisionDetails.
Record t := {
  ServiceID : string;
  PlanID : string;
  OrganizationGUID : string;
  SpaceGUID : string;
  RawParameters : string;
}.
End ProvisionDetails.

Module ProvisionedServiceSpec.
Record t := {
  IsAsync : bool;
  DashboardURL : string;
  OperationData : string;
}.
Definition zero : t :=
  {| IsAsync := false; DashboardURL := ""; OperationData := "" |}.
End ProvisionedServiceSpec.

Module DeprovisionDetails.
Record t := {
  PlanID : string;
  ServiceID : string;
}.
End DeprovisionDetails.

Module DeprovisionServiceSpec.
Record t := {
  IsAsync : bool;
  OperationData : string;
}.
Definition zero : t := {| IsAsync := false; OperationData := "" |}.
End DeprovisionServiceSpec.

Module BindDetails.
Record t := {
  AppGUID : string;
  PlanID : string;
  ServiceID : string;
  RawParameters : string;
}.
End BindDetails.

Module SharedDevice.
Record t := {
  VolumeId : string;
}.
End SharedDevice.

Module VolumeMount.
Record t := {
  Driver : string;
  ContainerDir : string;
  Mode : string;
  DeviceType : string;
  Device : SharedDevice.t;
}.
End VolumeMount.

Module Binding.
(** [Credentials] is an [interface{}]; the broker stores a map from
    strings to strings in it. *)
Record t := {
  IsAsync : bool;
  OperationData : string;
  Credentials : GoMap;
  SyslogDrainURL : string;
  RouteServiceURL : string;
  VolumeMounts : list VolumeMount.t;
}.
Definition zero : t :=
  {| IsAsync := false; OperationData := ""; Credentials := None;
     SyslogDrainURL := ""; RouteServiceURL := ""; VolumeMounts := [] |}.
End Binding.

Module UnbindDetails.
Record t := {
  PlanID : string;
  ServiceID : string;
}.
End UnbindDetails.

Module UnbindSpec.
Record t := {
  IsAsync : bool;
  OperationData : string;
}.
Definition zero : t := {| IsAsync := false; OperationData := "" |}.
End UnbindSpec.

Module GetInstanceDetailsSpec.
Record t := {
  ServiceID : string;
  PlanID : string;
  DashboardURL : string;
}.
Definition zero : t :=
  {| ServiceID := ""; PlanID := ""; DashboardURL := "" |}.
End GetInstanceDetailsSpec.

Module GetBindingSpec.
Record t := {
  Credentials : GoMap;
  SyslogDrainURL : string;
  RouteServiceURL : string;
  VolumeMounts : list VolumeMount.t;
}.
Definition zero : t :=
  {| Credentials := None; SyslogDrainURL := ""; RouteServiceURL := "";
     VolumeMounts := [] |}.
End GetBindingSpec.

Module PollDetails.
Record t := {
  ServiceID : string;
  PlanID : string;
  OperationData : string;
}.
End PollDetails.

Module LastOperation.
Record t := {
  State : string;
  Description : string;
}.
Definition zero : t := {| State := ""; Description := "" |}.
End LastOperation.

Module UpdateDetails.
Record t := {
  ServiceID : string;
  PlanID : string;
  RawParameters : string;
}.
End UpdateDetails.

Module UpdateServiceSpec.
Record t := {
  IsAsync : bool;
  DashboardURL : string;
  OperationData : string;
}.
Definition zero : t :=
  {| IsAsync := false; DashboardURL := ""; OperationData := "" |}.
End UpdateServiceSpec.

End brokerapi.

(** ** The broker ([broker] package) *)

Module broker.
Import kubernetes.

(** The configuration the user can pass when binding. *)
Record userMountConfiguration := {
  Directory : string;
}.

(** The configuration the user can pass when creating a service. *)
Record userConfiguration := {
  Size : string;
  AccessMode : string;
}.

(** The libraries the broker calls: [json.Unmarshal] into each of the
    two structs above (from their zero value) and
    [resource.ParseQuantity]. *)
Class Libraries := {
  json_Unmarshal_userConfiguration : string → error + userConfiguration;
  json_Unmarshal_userMountConfiguration :
    string → error + userMountConfiguration;
  resource_ParseQuantity : string → error + resource.Quantity;
}.

(** [KubeVolumeBroker].  Its [Context] field and the [ctx] argument of
    every method are passed on to the client untouched and are left
    out. *)
Record KubeVolumeBroker (S : Type) := {
  KubeClient : Interface S;
  Config : config.Config;
}.
Arguments KubeClient {S} _.
Arguments Config {S} _.

(** The heap of boolean cells that [*bool] pointers address. *)
Abbreviation Heap := (list bool).

Definition bindingIDAnnotation (bindingID : string) : string :=
  "eirini-broker-binding-" +:+ bindingID.

Definition isBindingIDAnnotation (annotationKey : string) : bool :=
  String.prefix "eirini-broker-binding-" annotationKey.

(** The three returns of [instanceExists]: [(false, nil, nil)],
    [(true, pvc, nil)] and [(false, nil, err)]. *)
Inductive Existence :=
| NotExists
| Exists (pvc : corev1.PersistentVolumeClaim)
| ExistsError (err : error).

(** The body of the [range] loop of [Services].  With [go 1.14] in
    [go.mod] the loop has one variable [plan] for all iterations; each
    round copies the next plan into it.  [&plan.Free] is the address of
    that variable's field, the cell [plan_Free]. *)
Fixpoint Services_range (plan_Free : nat) (idx : nat)
    (plans : list config.Plan) (planList : list brokerapi.ServicePlan.t)
    (h : Heap) : list brokerapi.ServicePlan.t * Heap :=
  match plans with
  | [] => (planList, h)
  | p :: rest =>
      let h := <[plan_Free := config.Free p]> h in
      let planList :=
        <[idx := {| brokerapi.ServicePlan.Name := config.Name p;
                    brokerapi.ServicePlan.Description := config.Description p;
                    brokerapi.ServicePlan.Free := Some plan_Free;
                    brokerapi.ServicePlan.ID := config.ID p |}]> planList in
      Services_range plan_Free (S idx) rest planList h
  end.

(** The plan lookup of [Provision]: the first plan with the identifier.
    The loop leaves at the match, so the pointer to its variable reads
    the matching plan. *)
Fixpoint Provision_plan (plans : list config.Plan) (planID : string)
  : option config.Plan :=
  match plans with
  | [] => None
  | p :: rest =>
      if decide (config.ID p = planID) then Some p
      else Provision_plan rest planID
  end.

Section methods.
Context {S : Type} `{!PersistentVolumeClaimInterface S} `{!Libraries}.

Definition instanceExists (b : KubeVolumeBroker S) (instanceID : string)
  : Existence * Interface S :=
  let '(r, k) :=
    doGet (KubeClient b) (config.Namespace (Config b)) instanceID in
  match r with
  | inl err =>
      if apierrors.IsNotFound (Some err) then (NotExists, k)
      else (ExistsError (errors_Wrap err "error listing persistent volumes"),
            k)
  | inr pvc => (Exists pvc, k)
  end.

(** [Services] returns a list with one item. *)
Definition Services (b : KubeVolumeBroker S) (h : Heap)
  : list brokerapi.Service.t * option error * Heap :=
  let sc := config.ServiceConfiguration_ (Config b) in
  let planList :=
    replicate (length (config.Plans sc)) brokerapi.ServicePlan.zero in
  let plan_Free := length h in
  let h := (h ++ [false])%list in
  let '(planList, h) :=
    Services_range plan_Free 0 (config.Plans sc) planList h in
  ([ {| brokerapi.Service.ID := config.ServiceID sc;
        brokerapi.Service.Name := config.ServiceName sc;
        brokerapi.Service.Description := config.Description_ sc;
        brokerapi.Service.Bindable := true;
        brokerapi.Service.Plans := planList;
        brokerapi.Service.Metadata :=
          Some {| brokerapi.ServiceMetadata.DisplayName :=
                    config.DisplayName sc;
                  brokerapi.ServiceMetadata.LongDescription :=
                    config.LongDescription sc;
                  brokerapi.ServiceMetadata.DocumentationUrl :=
                    config.DocumentationURL sc;
                  brokerapi.ServiceMetadata.SupportUrl :=
                    config.SupportURL sc;
                  brokerapi.ServiceMetadata.ImageUrl :=
                    "data:image/png;base64," +:+ config.IconImage sc;
                  brokerapi.ServiceMetadata.ProviderDisplayName :=
                    config.ProviderDisplayName sc |};
        brokerapi.Service.Tags := ["eirini"; "kubernetes"; "storage"];
        brokerapi.Service.Requires := [brokerapi.PermissionVolumeMount] |} ],
   None, h).

(** Lines 114 to 120 of [Provision]: the user configuration stays at
    its zero value when there are no raw parameters. *)
Definition Provision_userConfig (RawParameters : string)
  : error + userConfiguration :=
  if decide (0 < String.length RawParameters)
  then json_Unmarshal_userConfiguration RawParameters
  else inr {| Size := ""; AccessMode := "" |}.

(** The claim [Provision] sends to [Create]. *)
Definition Provision_claim (instanceID : string)
    (serviceDetails : brokerapi.ProvisionDetails.t) (plan : config.Plan)
    (accessMode : string) (quantity : resource.Quantity)
  : corev1.PersistentVolumeClaim :=
  {| corev1.ObjectMeta :=
       {| metav1.Name := instanceID;
          metav1.Namespace := "";
          metav1.Labels :=
            Some (<["service-id" :=
                      brokerapi.ProvisionDetails.ServiceID serviceDetails]>
                  (<["plan-id" :=
                      brokerapi.ProvisionDetails.PlanID serviceDetails]>
                  (<["organization-id" :=
                      brokerapi.ProvisionDetails.OrganizationGUID
                        serviceDetails]>
                  (<["space-id" :=
                      brokerapi.ProvisionDetails.SpaceGUID serviceDetails]>
                   ∅))));
          metav1.Annotations := None |};
     corev1.Spec :=
       {| corev1.StorageClassName := config.StorageClass plan;
          corev1.AccessModes := [accessMode];
          corev1.Resources :=
            {| corev1.Requests := {["storage" := quantity]} |} |} |}.

(** [Provision] creates a Kubernetes PVC. *)
Definition Provision (b : KubeVolumeBroker S) (instanceID : string)
    (serviceDetails : brokerapi.ProvisionDetails.t) (asyncAllowed : bool)
  : brokerapi.ProvisionedServiceSpec.t * option error * Interface S :=
  let spec := brokerapi.ProvisionedServiceSpec.zero in
  if decide (brokerapi.ProvisionDetails.PlanID serviceDetails = "")
  then (spec, Some (errors_New "plan_id required"), KubeClient b)
  else
  match Provision_plan (config.Plans (config.ServiceConfiguration_ (Config b)))
          (brokerapi.ProvisionDetails.PlanID serviceDetails) with
  | None => (spec, Some (errors_New "plan_id not recognized"), KubeClient b)
  | Some plan =>
  let '(volumeExists, k) := instanceExists b instanceID in
  match volumeExists with
  | ExistsError err => (spec, Some (errors_Wrap err "error provisioning"), k)
  | Exists _ => (spec, Some ErrInstanceAlreadyExists, k)
  | NotExists =>
  match Provision_userConfig
          (brokerapi.ProvisionDetails.RawParameters serviceDetails) with
  | inl err =>
      (spec,
       Some (errors_Wrap err "error unmarshaling json user configuration"), k)
  | inr userConfig =>
  let size := Size userConfig in
  let size := if decide (size = "") then config.DefaultSize plan else size in
  if decide (size = "")
  then (spec, Some (errors_New "plan doesn't have a default size"), k)
  else
  let accessMode := AccessMode userConfig in
  let accessMode :=
    if decide (accessMode = "") then config.DefaultAccessMode plan
    else accessMode in
  let accessMode :=
    if decide (accessMode = "") then "ReadWriteMany" else accessMode in
  match resource_ParseQuantity size with
  | inl err => (spec, Some (errors_Wrap err "invalid quantity string"), k)
  | inr quantity =>
  let '(err, k) :=
    doCreate k (config.Namespace (Config b))
      (Provision_claim instanceID serviceDetails plan accessMode quantity) in
  match err with
  | Some err => (spec, Some (errors_Wrap err "error provisioning"), k)
  | None =>
      ({| brokerapi.ProvisionedServiceSpec.IsAsync := false;
          brokerapi.ProvisionedServiceSpec.DashboardURL := "";
          brokerapi.ProvisionedServiceSpec.OperationData :=
            brokerapi.ProvisionedServiceSpec.OperationData spec |},
       None, k)
  end end end end end.

(** [Deprovision] deletes a Kubernetes PVC. *)
Definition Deprovision (b : KubeVolumeBroker S) (instanceID : string)
    (details : brokerapi.DeprovisionDetails.t) (asyncAllowed : bool)
  : brokerapi.DeprovisionServiceSpec.t * option error * Interface S :=
  let spec := brokerapi.DeprovisionServiceSpec.zero in
  let '(volumeExists, k) := instanceExists b instanceID in
  match volumeExists with
  | ExistsError err => (spec, Some (errors_Wrap err "error deprovisioning"), k)
  | NotExists => (spec, Some ErrInstanceDoesNotExist, k)
  | Exists _ =>
  let '(err, k) := doDelete k (config.Namespace (Config b)) instanceID in
  match err with
  | Some err =>
      (spec,
       Some (errors_Wrap err
               "error deleting persistent volume claim for deprovisioning"),
       k)
  | None => (spec, None, k)
  end end.

(** Lines 219 to 225 of [Bind]. *)
Definition Bind_userMount (RawParameters : string)
  : error + userMountConfiguration :=
  if decide (0 < String.length RawParameters)
  then json_Unmarshal_userMountConfiguration RawParameters
  else inr {| Directory := "" |}.

(** Lines 226 to 229 of [Bind]. *)
Definition Bind_containerDir (userMount : userMountConfiguration)
    (bindingID : string) : string :=
  let containerDir := Directory userMount in
  if decide (containerDir = "") then "/var/vcap/data/" +:+ bindingID
  else containerDir.

(** Lines 231 to 235 of [Bind]: the claim with the annotation added,
    in a new table when the claim had none. *)
Definition Bind_annotate (pvc : corev1.PersistentVolumeClaim)
    (bindingID containerDir : string) : corev1.PersistentVolumeClaim :=
  let annotations :=
    match corev1.Annotations pvc with
    | None => ∅
    | Some t => t
    end in
  corev1.set_Annotations pvc
    (Some (<[bindingIDAnnotation bindingID := containerDir]> annotations)).

(** The single mount that [Bind] and [GetBinding] build. *)
Definition volumeMount (storageClassName containerDir VolumeId : string)
  : brokerapi.VolumeMount.t :=
  {| brokerapi.VolumeMount.Driver := storageClassName;
     brokerapi.VolumeMount.ContainerDir := containerDir;
     brokerapi.VolumeMount.Mode := "rw";
     brokerapi.VolumeMount.DeviceType := "shared";
     brokerapi.VolumeMount.Device :=
       {| brokerapi.SharedDevice.VolumeId := VolumeId |} |}.

(** [Bind] adds an annotation to the service instance PVC. *)
Definition Bind (b : KubeVolumeBroker S) (instanceID bindingID : string)
    (details : brokerapi.BindDetails.t) (asyncAllowed : bool)
  : brokerapi.Binding.t * option error * Interface S :=
  let spec := brokerapi.Binding.zero in
  let '(volumeExists, k) := instanceExists b instanceID in
  match volumeExists with
  | ExistsError err => (spec, Some (errors_Wrap err "error binding"), k)
  | NotExists => (spec, Some ErrInstanceDoesNotExist, k)
  | Exists pvc =>
  match map_index (corev1.Annotations pvc) (bindingIDAnnotation bindingID) with
  | Some _ => (spec, Some ErrBindingAlreadyExists, k)
  | None =>
  match Bind_userMount (brokerapi.BindDetails.RawParameters details) with
  | inl err =>
      (spec,
       Some (errors_Wrap err "error unmarshaling json user configuration"), k)
  | inr userMount =>
  let containerDir := Bind_containerDir userMount bindingID in
  let pvc := Bind_annotate pvc bindingID containerDir in
  let '(err, k) := doUpdate k (config.Namespace (Config b)) pvc in
  match err with
  | Some err =>
      (spec,
       Some (errors_Wrap err
         "error updating persistent volume claim annotations for binding"),
       k)
  | None =>
  match corev1.StorageClassName (corev1.Spec pvc) with
  | None => (spec, Some (errors_New "pvc has a nil storage class"), k)
  | Some storageClassName =>
      ({| brokerapi.Binding.IsAsync := false;
          brokerapi.Binding.OperationData := "";
          brokerapi.Binding.Credentials :=
            Some {["volume_id" := corev1.Name pvc]};
          brokerapi.Binding.SyslogDrainURL := "";
          brokerapi.Binding.RouteServiceURL := "";
          brokerapi.Binding.VolumeMounts :=
            [volumeMount storageClassName containerDir (corev1.Name pvc)] |},
       None, k)
  end end end end end.

(** [Unbind] removes the binding annotation from the appropriate PVC. *)
Definition Unbind (b : KubeVolumeBroker S) (instanceID bindingID : string)
    (details : brokerapi.UnbindDetails.t) (asyncAllowed : bool)
  : brokerapi.UnbindSpec.t * option error * Interface S :=
  let spec := brokerapi.UnbindSpec.zero in
  let '(volumeExists, k) := instanceExists b instanceID in
  match volumeExists with
  | ExistsError err => (spec, Some (errors_Wrap err "error unbinding"), k)
  | NotExists => (spec, Some ErrInstanceDoesNotExist, k)
  | Exists pvc =>
  if decide (map_len (corev1.Annotations pvc) = 0)
  then (spec, Some ErrBindingDoesNotExist, k)
  else
  match map_index (corev1.Annotations pvc) (bindingIDAnnotation bindingID) with
  | None => (spec, Some ErrBindingDoesNotExist, k)
  | Some _ =>
  let pvc :=
    corev1.set_Annotations pvc
      (map_delete (corev1.Annotations pvc) (bindingIDAnnotation bindingID)) in
  let '(err, k) := doUpdate k (config.Namespace (Config b)) pvc in
  match err with
  | Some err =>
      (spec,
       Some (errors_Wrap err
         "error updating persistent volume claim annotations for unbinding"),
       k)
  | None => (spec, None, k)
  end end end.

(** [GetInstance] finds the correct PVC and reconstructs an instance
    spec. *)
Definition GetInstance (b : KubeVolumeBroker S) (instanceID : string)
  : brokerapi.GetInstanceDetailsSpec.t * option error * Interface S :=
  let spec := brokerapi.GetInstanceDetailsSpec.zero in
  let '(volumeExists, k) := instanceExists b instanceID in
  match volumeExists with
  | ExistsError err => (spec, Some (errors_Wrap err "error getting instance"), k)
  | NotExists => (spec, Some ErrInstanceDoesNotExist, k)
  | Exists pvc =>
  match map_index (corev1.Labels pvc) "plan-id" with
  | None => (spec, Some (errors_New "plan-id label missing from pvc"), k)
  | Some PlanID =>
  match map_index (corev1.Labels pvc) "service-id" with
  | None =>
      ({| brokerapi.GetInstanceDetailsSpec.ServiceID := "";
          brokerapi.GetInstanceDetailsSpec.PlanID := PlanID;
          brokerapi.GetInstanceDetailsSpec.DashboardURL := "" |},
       Some (errors_New "service-id label missing from pvc"), k)
  | Some ServiceID =>
      ({| brokerapi.GetInstanceDetailsSpec.ServiceID := ServiceID;
          brokerapi.GetInstanceDetailsSpec.PlanID := PlanID;
          brokerapi.GetInstanceDetailsSpec.DashboardURL := "" |},
       None, k)
  end end end.

(** [GetBinding] finds the correct PVC and its binding annotation and
    reconstructs a binding spec. *)
Definition GetBinding (b : KubeVolumeBroker S) (instanceID bindingID : string)
  : brokerapi.GetBindingSpec.t * option error * Interface S :=
  let spec := brokerapi.GetBindingSpec.zero in
  let '(volumeExists, k) := instanceExists b instanceID in
  match volumeExists with
  | ExistsError err => (spec, Some (errors_Wrap err "error getting binding"), k)
  | NotExists => (spec, Some ErrInstanceDoesNotExist, k)
  | Exists pvc =>
  if decide (map_len (corev1.Annotations pvc) = 0)
  then (spec, Some ErrBindingDoesNotExist, k)
  else
  match map_index (corev1.Annotations pvc) (bindingIDAnnotation bindingID) with
  | None => (spec, Some ErrBindingDoesNotExist, k)
  | Some containerDir =>
  match corev1.StorageClassName (corev1.Spec pvc) with
  | None => (spec, Some (errors_New "pvc has a nil storage class"), k)
  | Some storageClassName =>
      ({| brokerapi.GetBindingSpec.Credentials := None;
          brokerapi.GetBindingSpec.SyslogDrainURL := "";
          brokerapi.GetBindingSpec.RouteServiceURL := "";
          brokerapi.GetBindingSpec.VolumeMounts :=
            [volumeMount storageClassName containerDir (corev1.Name pvc)] |},
       None, k)
  end end end.

(** [LastBindingOperation] is currently a noop. *)
Definition LastBindingOperation (b : KubeVolumeBroker S)
    (instanceID bindingID : string) (details : brokerapi.PollDetails.t)
  : brokerapi.LastOperation.t * option error * Interface S :=
  (brokerapi.LastOperation.zero, None, KubeClient b).

(** [LastOperation] is currently a noop. *)
Definition LastOperation (b : KubeVolumeBroker S) (instanceID : string)
    (details : brokerapi.PollDetails.t)
  : brokerapi.LastOperation.t * option error * Interface S :=
  (brokerapi.LastOperation.zero, None, KubeClient b).

(** [Update] is currently a noop. *)
Definition Update (b : KubeVolumeBroker S) (instanceID : string)
    (details : brokerapi.UpdateDetails.t) (asyncAllowed : bool)
  : brokerapi.UpdateServiceSpec.t * option error * Interface S :=
  (brokerapi.UpdateServiceSpec.zero, None, KubeClient b).

End methods.
End broker.

(** ** An in-memory client

    A client over a list of claims, after the object tracker behind
    client-go's [fake.NewSimpleClientset], which the broker's tests run
    against: objects are found by the namespace and name they carry,
    [Create] refuses a second object of the same name, [Update] and
    [Delete] refuse a missing one, and both writers fill in an empty
    namespace.  It never fails for another reason. *)

Module fake.
Import kubernetes.

Definition Clientset := list corev1.PersistentVolumeClaim.

Definition NewSimpleClientset : Clientset := [].

Definition quote : string := String (Ascii.ascii_of_nat 34) "".

Definition NewNotFound (name : string) : error :=
  StatusError StatusReasonNotFound
    ("persistentvolumeclaims " +:+ quote +:+ name +:+ quote +:+ " not found").

Definition NewAlreadyExists (name : string) : error :=
  StatusError StatusReasonAlreadyExists
    ("persistentvolumeclaims " +:+ quote +:+ name +:+ quote
     +:+ " already exists").

Definition NewBadRequest : error :=
  StatusError StatusReasonBadRequest
    "request namespace does not match object namespace".

Definition is_object (ns name : string) (o : corev1.PersistentVolumeClaim)
  : bool :=
  bool_decide (metav1.Namespace (corev1.ObjectMeta o) = ns)
  && bool_decide (corev1.Name o = name).

Fixpoint tracker_find (objects : Clientset) (ns name : string)
  : option corev1.PersistentVolumeClaim :=
  match objects with
  | [] => None
  | o :: rest =>
      if is_object ns name o then Some o else tracker_find rest ns name
  end.

Fixpoint tracker_replace (objects : Clientset)
    (new : corev1.PersistentVolumeClaim) : option Clientset :=
  match objects with
  | [] => None
  | o :: rest =>
      if is_object (metav1.Namespace (corev1.ObjectMeta new))
           (corev1.Name new) o
      then Some (new :: rest)
      else cons o <$> tracker_replace rest new
  end.

Fixpoint tracker_remove (objects : Clientset) (ns name : string)
  : option Clientset :=
  match objects with
  | [] => None
  | o :: rest =>
      if is_object ns name o then Some rest
      else cons o <$> tracker_remove rest ns name
  end.

(** The namespace of the request goes to an object that has none. *)
Definition propagate (ns : string) (o : corev1.PersistentVolumeClaim)
  : corev1.PersistentVolumeClaim :=
  if decide (metav1.Namespace (corev1.ObjectMeta o) = "")
  then {| corev1.ObjectMeta :=
            {| metav1.Name := metav1.Name (corev1.ObjectMeta o);
               metav1.Namespace := ns;
               metav1.Labels := metav1.Labels (corev1.ObjectMeta o);
               metav1.Annotations :=
                 metav1.Annotations (corev1.ObjectMeta o) |};
          corev1.Spec := corev1.Spec o |}
  else o.

Definition tracker_Get (objects : Clientset) (ns name : string)
  : error + corev1.PersistentVolumeClaim :=
  match tracker_find objects ns name with
  | Some o => inr o
  | None => inl (NewNotFound name)
  end.

Definition tracker_Create (objects : Clientset) (ns : string)
    (obj : corev1.PersistentVolumeClaim) : option error * Clientset :=
  let obj := propagate ns obj in
  if decide (metav1.Namespace (corev1.ObjectMeta obj) = ns) then
    match tracker_find objects ns (corev1.Name obj) with
    | Some _ => (Some (NewAlreadyExists (corev1.Name obj)), objects)
    | None => (None, (objects ++ [obj])%list)
    end
  else (Some NewBadRequest, objects).

Definition tracker_Update (objects : Clientset) (ns : string)
    (obj : corev1.PersistentVolumeClaim) : option error * Clientset :=
  let obj := propagate ns obj in
  if decide (metav1.Namespace (corev1.ObjectMeta obj) = ns) then
    match tracker_replace objects obj with
    | Some objects => (None, objects)
    | None => (Some (NewNotFound (corev1.Name obj)), objects)
    end
  else (Some NewBadRequest, objects).

Definition tracker_Delete (objects : Clientset) (ns name : string)
  : option error * Clientset :=
  match tracker_remove objects ns name with
  | Some objects => (None, objects)
  | None => (Some (NewNotFound name), objects)
  end.

#[global] Instance tracker : PersistentVolumeClaimInterface Clientset := {|
  Get := tracker_Get;
  Create := tracker_Create;
  Update := tracker_Update;
  Delete := tracker_Delete;
|}.

(** A client handle on a cluster that has been sent nothing yet. *)
Definition client (objects : Clientset) : Interface Clientset :=
  {| cluster := objects; calls := [] |}.

End fake.

(** ** A client that cannot reach the cluster

    Every request fails with the same error; the state behind the
    client is that error. *)

Module faulty.
Import kubernetes.

#[global] Instance unreachable : PersistentVolumeClaimInterface error := {|
  Get e _ _ := inl e;
  Create e _ _ := (Some e, e);
  Update e _ _ := (Some e, e);
  Delete e _ _ := (Some e, e);
|}.

Definition connection_refused : error :=
  LibraryError "dial tcp: connection refused".

Definition client : Interface error :=
  {| cluster := connection_refused; calls := [] |}.

End faulty.

(** ** Reference libraries

    Stand-ins for [encoding/json] and [resource.ParseQuantity], for
    running the broker on concrete requests.  The decoder reads flat
    JSON objects whose members are strings, [null], numbers or
    booleans, matches keys exactly, ignores unknown keys and refuses a
    member of the wrong type; the quantity parser reads digits followed
    by an SI suffix.  Inputs outside these forms are refused, also where
    the Go libraries accept them.  The theorems below hold for every
    instance of [Libraries]; this one serves the examples. *)

Module reference.
Import broker.

Definition dquote : Ascii.ascii := Ascii.ascii_of_nat 34.
Definition backslash : Ascii.ascii := Ascii.ascii_of_nat 92.

Definition is_space (c : Ascii.ascii) : bool :=
  let n := Ascii.nat_of_ascii c in
  bool_decide (n = 32 ∨ n = 9 ∨ n = 10 ∨ n = 13)%nat.

Definition is_digit (c : Ascii.ascii) : bool :=
  let n := Ascii.nat_of_ascii c in
  bool_decide (48 ≤ n ≤ 57)%nat.

Definition digit (c : Ascii.ascii) : Z := Z.of_nat (Ascii.nat_of_ascii c) - 48.

Fixpoint skip_ws (s : string) : string :=
  match s with
  | String c rest => if is_space c then skip_ws rest else s
  | EmptyString => s
  end.

Definition unescape (c : Ascii.ascii) : option Ascii.ascii :=
  if decide (c = dquote) then Some dquote
  else if decide (c = backslash) then Some backslash
  else if decide (c = "/"%char) then Some "/"%char
  else if decide (c = "n"%char) then Some (Ascii.ascii_of_nat 10)
  else if decide (c = "t"%char) then Some (Ascii.ascii_of_nat 9)
  else if decide (c = "r"%char) then Some (Ascii.ascii_of_nat 13)
  else None.

(** The characters of a string literal after its opening quote, and
    what follows the closing quote. *)
Fixpoint scan_string (s : string) : option (string * string) :=
  match s with
  | EmptyString => None
  | String c rest =>
      if decide (c = dquote) then Some (EmptyString, rest)
      else if decide (c = backslash) then
        match rest with
        | String e rest' =>
            match unescape e, scan_string rest' with
            | Some ch, Some (lit, after) => Some (String ch lit, after)
            | _, _ => None
            end
        | EmptyString => None
        end
      else
        match scan_string rest with
        | Some (lit, after) => Some (String c lit, after)
        | None => None
        end
  end.

Inductive value :=
| VString (s : string)
| VNull
| VOther (kind : string).

Fixpoint skip_number (s : string) : string :=
  match s with
  | String c rest =>
      if is_digit c
         || bool_decide (c = "."%char ∨ c = "e"%char ∨ c = "E"%char
                         ∨ c = "+"%char ∨ c = "-"%char)
      then skip_number rest else s
  | EmptyString => s
  end.

Definition strip_prefix (p s : string) : option string :=
  if String.prefix p s
  then Some (String.substring (String.length p)
               (String.length s - String.length p) s)
  else None.

Definition scan_value (s : string) : option (value * string) :=
  match s with
  | EmptyString => None
  | String c rest =>
      if decide (c = dquote) then
        match scan_string rest with
        | Some (lit, after) => Some (VString lit, after)
        | None => None
        end
      else if is_digit c || bool_decide (c = "-"%char)
      then Some (VOther "number", skip_number rest)
      else
        match strip_prefix "null" s, strip_prefix "true" s,
              strip_prefix "false" s with
        | Some after, _, _ => Some (VNull, after)
        | _, Some after, _ => Some (VOther "bool", after)
        | _, _, Some after => Some (VOther "bool", after)
        | _, _, _ => None
        end
  end.

(** The members of an object after its opening brace, up to the closing
    brace; [fuel] bounds the number of members. *)
Fixpoint scan_members (fuel : nat) (s : string)
    (acc : list (string * value)) : option (list (string * value) * string) :=
  match fuel with
  | O => None
  | Datatypes.S fuel =>
      match skip_ws s with
      | String c s0 =>
          if decide (c = dquote) then
            match scan_string s0 with
            | Some (key, s1) =>
                match skip_ws s1 with
                | String ":" s2 =>
                    match scan_value (skip_ws s2) with
                    | Some (v, s3) =>
                        match skip_ws s3 with
                        | String "," s4 =>
                            scan_members fuel s4 (acc ++ [(key, v)])%list
                        | String "}" s4 => Some ((acc ++ [(key, v)])%list, s4)
                        | _ => None
                        end
                    | None => None
                    end
                | _ => None
                end
            | None => None
            end
          else None
      | EmptyString => None
      end
  end.

Definition scan_object (s : string) : option (list (string * value)) :=
  match skip_ws s with
  | String "{" s1 =>
      match skip_ws s1 with
      | String "}" s2 =>
          if decide (skip_ws s2 = EmptyString) then Some [] else None
      | _ =>
          match scan_members (String.length s) s1 [] with
          | Some (members, s2) =>
              if decide (skip_ws s2 = EmptyString) then Some members else None
          | None => None
          end
      end
  | _ => None
  end.

Definition SyntaxError : error :=
  LibraryError "invalid character in JSON input".

Definition UnmarshalTypeError (kind tag : string) : error :=
  LibraryError ("json: cannot unmarshal " +:+ kind
                +:+ " into Go struct field " +:+ tag +:+ " of type string").

(** The string fields named by [tags], filled from the members in
    order: a later member wins, [null] leaves a field alone. *)
Fixpoint fill (tags : list string) (members : list (string * value))
    (fields : gmap string string) : error + gmap string string :=
  match members with
  | [] => inr fields
  | (key, v) :: rest =>
      if decide (key ∈ tags) then
        match v with
        | VString s => fill tags rest (<[key := s]> fields)
        | VNull => fill tags rest fields
        | VOther kind => inl (UnmarshalTypeError kind key)
        end
      else fill tags rest fields
  end.

Definition Unmarshal (tags : list string) (data : string)
  : error + gmap string string :=
  if decide (skip_ws data = "null") then inr ∅
  else
    match scan_object data with
    | Some members => fill tags members ∅
    | None => inl SyntaxError
    end.

Definition Unmarshal_userConfiguration (data : string)
  : error + userConfiguration :=
  match Unmarshal ["size"; "access_mode"] data with
  | inl err => inl err
  | inr fields =>
      inr {| Size := default "" (fields !! "size");
             AccessMode := default "" (fields !! "access_mode") |}
  end.

Definition Unmarshal_userMountConfiguration (data : string)
  : error + userMountConfiguration :=
  match Unmarshal ["dir"] data with
  | inl err => inl err
  | inr fields => inr {| Directory := default "" (fields !! "dir") |}
  end.

Fixpoint scan_digits (s : string) (acc : Z) : Z * string :=
  match s with
  | String c rest =>
      if is_digit c then scan_digits rest (acc * 10 + digit c) else (acc, s)
  | EmptyString => (acc, s)
  end.

(** A binary suffix gives a power of two, a decimal suffix a power of
    ten. *)
Definition suffix (s : string) : option (Z + Z) :=
  if decide (s = "Ki") then Some (inl 10%Z)
  else if decide (s = "Mi") then Some (inl 20%Z)
  else if decide (s = "Gi") then Some (inl 30%Z)
  else if decide (s = "Ti") then Some (inl 40%Z)
  else if decide (s = "Pi") then Some (inl 50%Z)
  else if decide (s = "Ei") then Some (inl 60%Z)
  else if decide (s = "") then Some (inr 0%Z)
  else if decide (s = "n") then Some (inr (-9)%Z)
  else if decide (s = "u") then Some (inr (-6)%Z)
  else if decide (s = "m") then Some (inr (-3)%Z)
  else if decide (s = "k") then Some (inr 3%Z)
  else if decide (s = "M") then Some (inr 6%Z)
  else if decide (s = "G") then Some (inr 9%Z)
  else if decide (s = "T") then Some (inr 12%Z)
  else if decide (s = "P") then Some (inr 15%Z)
  else if decide (s = "E") then Some (inr 18%Z)
  else None.

Definition ErrFormatWrong : error :=
  LibraryError "quantities must match the regular expression".

Definition ErrSuffix : error :=
  LibraryError "unable to parse quantity's suffix".

Definition ParseQuantity (str : string) : error + resource.Quantity :=
  match str with
  | EmptyString => inl ErrFormatWrong
  | String c _ =>
      if is_digit c then
        let '(n, rest) := scan_digits str 0 in
        match suffix rest with
        | Some (inl two) =>
            inr {| resource.value := n * 2 ^ two; resource.scale := 0;
                   resource.format := resource.BinarySI |}
        | Some (inr ten) =>
            inr {| resource.value := n; resource.scale := ten;
                   resource.format := resource.DecimalSI |}
        | None => inl ErrSuffix
        end
      else inl ErrFormatWrong
  end.

#[global] Instance libraries : Libraries := {|
  json_Unmarshal_userConfiguration := Unmarshal_userConfiguration;
  json_Unmarshal_userMountConfiguration := Unmarshal_userMountConfiguration;
  resource_ParseQuantity := ParseQuantity;
|}.

End reference.

(** ** The Kubernetes configuration getter ([cmd/broker/kube_config.go])

    [kubeConfigGetter] holds its collaborators as function fields.  The
    four that take no argument are called at most once in a [Get] and
    are modelled by what they return.  [Config] stands for
    [*rest.Config] and [E] for the errors of the collaborators.  [Get]
    returns Go's pair as a sum, with the calls it made and the messages
    it logged, in order. *)

Module kubeconfig.

(** [user.User], the field [Get] reads. *)
Record User := {
  HomeDir : string;
}.

(** What [Get] does to the outside, in order. *)
Inductive Event :=
| LookupEnv (key : string)
| InClusterConfig
| CurrentUser
| ReadFile (filename : string)
| RESTConfigFromKubeConfig (configBytes : string)
| DefaultRESTConfig
| LogInfo (message : string).

Definition is_LogInfo (event : Event) : bool :=
  match event with
  | LogInfo _ => true
  | _ => false
  end.

Definition is_ReadFile (event : Event) : bool :=
  match event with
  | ReadFile _ => true
  | _ => false
  end.

Section getter.
Context {Config E : Type}.

(** The library functions [Get] calls directly. *)
Class Runtime := {
  os_IsNotExist : E → bool;
  filepath_Join : list string → string;
}.

Record kubeConfigGetter := {
  inClusterConfig : E + Config;
  lookupEnv : string → option string;
  readFile : string → E + string;
  restConfigFromKubeConfig : string → E + Config;
  currentUser : E + User;
  defaultRESTConfig : E + Config;
}.

Record getConfigError := {
  err : E;
}.

Context `{!Runtime}.

(** Lines 71 to 92 of [Get]: the configuration read from the file at
    [configPath], or the default one when there is no such file. *)
Definition Get_read (g : kubeConfigGetter) (configPath : string)
  : (getConfigError + Config) * list Event :=
  match readFile g configPath with
  | inl e =>
      if negb (os_IsNotExist e)
      then (inl {| err := e |}, [ReadFile configPath])
      else
        match defaultRESTConfig g with
        | inl e => (inl {| err := e |},
                    [ReadFile configPath; DefaultRESTConfig])
        | inr c =>
            (inr c,
             [ReadFile configPath; DefaultRESTConfig;
              LogInfo (configPath
                       +:+ " does not exist, using default kube config")])
        end
  | inr b =>
      match restConfigFromKubeConfig g b with
      | inl e => (inl {| err := e |},
                  [ReadFile configPath; RESTConfigFromKubeConfig b])
      | inr c =>
          (inr c,
           [ReadFile configPath; RESTConfigFromKubeConfig b;
            LogInfo ("Using kube config '" +:+ configPath +:+ "'")])
      end
  end.

(** Lines 63 to 68 of [Get], followed by the read: the path is the
    [.kube/config] of the current user's home. *)
Definition Get_home (g : kubeConfigGetter) (before : list Event)
  : (getConfigError + Config) * list Event :=
  match currentUser g with
  | inl e => (inl {| err := e |}, (before ++ [CurrentUser])%list)
  | inr usr =>
      let '(result, events) :=
        Get_read g (filepath_Join [HomeDir usr; ".kube"; "config"]) in
      (result, (before ++ [CurrentUser] ++ events)%list)
  end.

Definition Get (g : kubeConfigGetter) (customConfigPath : string)
  : (getConfigError + Config) * list Event :=
  if decide (customConfigPath = "") then
    let okHost := lookupEnv g "KUBERNETES_SERVICE_HOST" in
    let okPort := lookupEnv g "KUBERNETES_SERVICE_PORT" in
    let looked := [LookupEnv "KUBERNETES_SERVICE_HOST";
                   LookupEnv "KUBERNETES_SERVICE_PORT"] in
    if decide (is_Some okHost ∧ is_Some okPort) then
      match inClusterConfig g with
      | inr c =>
          (inr c,
           (looked ++ [InClusterConfig;
                       LogInfo "Using in-cluster kube config"])%list)
      | inl e =>
          if negb (os_IsNotExist e)
          then (inl {| err := e |}, (looked ++ [InClusterConfig])%list)
          else Get_home g (looked ++ [InClusterConfig])%list
      end
    else Get_home g looked
  else Get_read g customConfigPath.

(** The collaborator whose call is [event] failed with [e]. *)
Definition failed_with (g : kubeConfigGetter) (event : Event) (e : E) : Prop :=
  match event with
  | InClusterConfig => inClusterConfig g = inl e
  | CurrentUser => currentUser g = inl e
  | ReadFile filename => readFile g filename = inl e
  | RESTConfigFromKubeConfig configBytes =>
      restConfigFromKubeConfig g configBytes = inl e
  | DefaultRESTConfig => defaultRESTConfig g = inl e
  | LookupEnv _ | LogInfo _ => False
  end.

End getter.

Arguments kubeConfigGetter : clear implicits.
Arguments getConfigError : clear implicits.
Arguments Runtime : clear implicits.

(** A machine for the examples: errors are messages, a configuration
    is the name of where it came from, paths are joined with a slash.
    It runs outside a cluster, the user's home has no kube config, and
    there is one at [/etc/kube/config]. *)
Module example.

#[global] Instance runtime : Runtime string := {|
  os_IsNotExist e := bool_decide (e = "no such file or directory");
  filepath_Join elem := foldr (λ part rest,
                                 if decide (rest = "") then part
                                 else part +:+ "/" +:+ rest) "" elem;
|}.

Definition outside : kubeConfigGetter string string := {|
  inClusterConfig := inl "no such file or directory";
  lookupEnv key := None;
  readFile filename :=
    if decide (filename = "/etc/kube/config") then inr "apiVersion: v1"
    else if decide (filename = "/root/secret") then inl "permission denied"
    else inl "no such file or directory";
  restConfigFromKubeConfig configBytes :=
    if decide (configBytes = "apiVersion: v1") then inr "from file"
    else inl "invalid configuration";
  currentUser := inr {| HomeDir := "/home/eirini" |};
  defaultRESTConfig := inr "default";
|}.

(** The same machine inside a cluster. *)
Definition inside : kubeConfigGetter string string := {|
  inClusterConfig := inr "in-cluster";
  lookupEnv key :=
    if decide (key = "KUBERNETES_SERVICE_HOST") then Some "10.0.0.1"
    else if decide (key = "KUBERNETES_SERVICE_PORT") then Some "443"
    else None;
  readFile := readFile outside;
  restConfigFromKubeConfig := restConfigFromKubeConfig outside;
  currentUser := currentUser outside;
  defaultRESTConfig := defaultRESTConfig outside;
|}.

(** Inside a cluster whose service account cannot be read. *)
Definition broken : kubeConfigGetter string string := {|
  inClusterConfig := inl "permission denied";
  lookupEnv := lookupEnv inside;
  readFile := readFile outside;
  restConfigFromKubeConfig := restConfigFromKubeConfig outside;
  currentUser := currentUser outside;
  defaultRESTConfig := defaultRESTConfig outside;
|}.

End example.

End kubeconfig.

(** ** Vocabulary of the statements *)

Module statements.
Import kubernetes broker.

(** The broker with configuration [cfg] on the client handle [k]. *)
Definition on {S} (cfg : config.Config) (k : Interface S)
  : KubeVolumeBroker S :=
  {| KubeClient := k; Config := cfg |}.

(** The handle after one [Get]: the same cluster, one more request. *)
Definition after_Get {S} (k : Interface S) (ns name : string) : Interface S :=
  sent k (CallGet ns name) (cluster k).

(** The defaulting rules of [Provision] in the specification's words:
    the size is the user's, else the plan's default, else there is
    none; the access mode is the user's, else the plan's default, else
    [ReadWriteMany]. *)
Definition effective_size (user : userConfiguration) (plan : config.Plan)
  : option string :=
  if decide (Size user ≠ "") then Some (Size user)
  else if decide (config.DefaultSize plan ≠ "")
       then Some (config.DefaultSize plan)
       else None.

Definition effective_access_mode (user : userConfiguration)
    (plan : config.Plan) : string :=
  if decide (AccessMode user ≠ "") then AccessMode user
  else if decide (config.DefaultAccessMode plan ≠ "")
       then config.DefaultAccessMode plan
       else "ReadWriteMany".

(** What a listed plan says about being free: the boolean its [Free]
    pointer addresses. *)
Definition listed_free (h : Heap) (plan : brokerapi.ServicePlan.t)
  : option bool :=
  match brokerapi.ServicePlan.Free plan with
  | None => None
  | Some address => h !! address
  end.

(** The entry [Services] writes for a plan when the loop variable's
    [Free] field is the cell [plan_Free]. *)
Definition listed (plan_Free : nat) (p : config.Plan)
  : brokerapi.ServicePlan.t :=
  {| brokerapi.ServicePlan.Name := config.Name p;
     brokerapi.ServicePlan.Description := config.Description p;
     brokerapi.ServicePlan.Free := Some plan_Free;
     brokerapi.ServicePlan.ID := config.ID p |}.

End statements.

(** ** The concrete scenario of the specification *)

Module scenario.
Import kubernetes broker statements.

(** The catalog with the single plan of the scenario; the fields the
    scenario does not give are at their zero value. *)
Definition p1 : config.Plan :=
  {| config.ID := "p1"; config.Name := ""; config.Description := "";
     config.StorageClass := Some "gold"; config.Free := false;
     config.DefaultSize := "1Gi"; config.DefaultAccessMode := "" |}.

Definition catalog (plans : list config.Plan) : config.Config :=
  {| config.ServiceConfiguration_ :=
       {| config.ServiceName := "eirini-persi"; config.ServiceID := "s1";
          config.Plans := plans; config.Description_ := "";
          config.LongDescription := ""; config.ProviderDisplayName := "";
          config.DocumentationURL := ""; config.SupportURL := "";
          config.DisplayName := ""; config.IconImage := "" |};
     config.AuthConfiguration_ :=
       {| config.Password := ""; config.Username := "" |};
     config.Host := ""; config.Port := ""; config.Namespace := "eirini" |}.

Definition provision_p1 : brokerapi.ProvisionDetails.t :=
  {| brokerapi.ProvisionDetails.ServiceID := "s1";
     brokerapi.ProvisionDetails.PlanID := "p1";
     brokerapi.ProvisionDetails.OrganizationGUID := "o1";
     brokerapi.ProvisionDetails.SpaceGUID := "sp1";
     brokerapi.ProvisionDetails.RawParameters := "" |}.

(** The bytes [{"dir":"/mnt"}]. *)
Definition dir_mnt : string :=
  "{" +:+ fake.quote +:+ "dir" +:+ fake.quote +:+ ":"
  +:+ fake.quote +:+ "/mnt" +:+ fake.quote +:+ "}".

Definition bind_mnt : brokerapi.BindDetails.t :=
  {| brokerapi.BindDetails.AppGUID := "a1";
     brokerapi.BindDetails.PlanID := "p1";
     brokerapi.BindDetails.ServiceID := "s1";
     brokerapi.BindDetails.RawParameters := dir_mnt |}.

Definition unbind_p1 : brokerapi.UnbindDetails.t :=
  {| brokerapi.UnbindDetails.PlanID := "p1";
     brokerapi.UnbindDetails.ServiceID := "s1" |}.

Definition deprovision_p1 : brokerapi.DeprovisionDetails.t :=
  {| brokerapi.DeprovisionDetails.PlanID := "p1";
     brokerapi.DeprovisionDetails.ServiceID := "s1" |}.

(** The claim of instance [i1] as the scenario leaves it in the
    cluster, with capacity [quantity] and the given annotations. *)
Definition claim (quantity : resource.Quantity) (annotations : GoMap)
  : corev1.PersistentVolumeClaim :=
  {| corev1.ObjectMeta :=
       {| metav1.Name := "i1";
          metav1.Namespace := "eirini";
          metav1.Labels :=
            Some (<["service-id" := "s1"]>
                  (<["plan-id" := "p1"]>
                  (<["organization-id" := "o1"]>
                  (<["space-id" := "sp1"]> ∅))));
          metav1.Annotations := annotations |};
     corev1.Spec :=
       {| corev1.StorageClassName := Some "gold";
          corev1.AccessModes := ["ReadWriteMany"];
          corev1.Resources :=
            {| corev1.Requests := {["storage" := quantity]} |} |} |}.

(** The quantity [1Gi]. *)
Definition one_Gi : resource.Quantity :=
  {| resource.value := 1073741824; resource.scale := 0;
     resource.format := resource.BinarySI |}.

(** The client handle after each step of the scenario, from an empty
    cluster. *)
Definition binding_b1 : gmap string string :=
  {["eirini-broker-binding-b1" := "/mnt"]}.

Definition after_provision (q : resource.Quantity)
  : Interface fake.Clientset :=
  {| cluster := [claim q None];
     calls := [CallGet "eirini" "i1";
               CallCreate "eirini"
                 (Provision_claim "i1" provision_p1 p1 "ReadWriteMany" q)] |}.

Definition after_bind (q : resource.Quantity) : Interface fake.Clientset :=
  {| cluster := [claim q (Some binding_b1)];
     calls := (calls (after_provision q)
               ++ [CallGet "eirini" "i1";
                   CallUpdate "eirini" (claim q (Some binding_b1))])%list |}.

Definition after_unbind (q : resource.Quantity) : Interface fake.Clientset :=
  {| cluster := [claim q (Some ∅)];
     calls := (calls (after_bind q)
               ++ [CallGet "eirini" "i1";
                   CallUpdate "eirini" (claim q (Some ∅))])%list |}.

Definition after_deprovision (q : resource.Quantity)
  : Interface fake.Clientset :=
  {| cluster := [];
     calls := (calls (after_unbind q)
               ++ [CallGet "eirini" "i1"; CallDelete "eirini" "i1"])%list |}.

(** The scenario's configuration and its empty cluster. *)
Definition cfg : config.Config := catalog [p1].

Definition empty : Interface fake.Clientset :=
  fake.client fake.NewSimpleClientset.

(** A claim named [i1] that declares no storage class, as one made by
    hand in the cluster could be. *)
Definition bare_claim : corev1.PersistentVolumeClaim :=
  {| corev1.ObjectMeta :=
       {| metav1.Name := "i1"; metav1.Namespace := "eirini";
          metav1.Labels := None; metav1.Annotations := None |};
     corev1.Spec :=
       {| corev1.StorageClassName := None; corev1.AccessModes := [];
          corev1.Resources := {| corev1.Requests := ∅ |} |} |}.

(** A plan without a default size, and a request that brings its own
    size and access mode: the bytes
    [{"size":"2Gi","access_mode":"ReadWriteOnce"}]. *)
Definition p2 : config.Plan :=
  {| config.ID := "p2"; config.Name := ""; config.Description := "";
     config.StorageClass := Some "silver"; config.Free := false;
     config.DefaultSize := ""; config.DefaultAccessMode := "ReadOnlyMany" |}.

Definition provision_p2 : brokerapi.ProvisionDetails.t :=
  {| brokerapi.ProvisionDetails.ServiceID := "s1";
     brokerapi.ProvisionDetails.PlanID := "p2";
     brokerapi.ProvisionDetails.OrganizationGUID := "o1";
     brokerapi.ProvisionDetails.SpaceGUID := "sp1";
     brokerapi.ProvisionDetails.RawParameters := "" |}.

Definition size_2Gi_once : string :=
  "{" +:+ fake.quote +:+ "size" +:+ fake.quote +:+ ":"
  +:+ fake.quote +:+ "2Gi" +:+ fake.quote +:+ ","
  +:+ fake.quote +:+ "access_mode" +:+ fake.quote +:+ ":"
  +:+ fake.quote +:+ "ReadWriteOnce" +:+ fake.quote +:+ "}".

Definition provision_p1_custom : brokerapi.ProvisionDetails.t :=
  {| brokerapi.ProvisionDetails.ServiceID := "s1";
     brokerapi.ProvisionDetails.PlanID := "p1";
     brokerapi.ProvisionDetails.OrganizationGUID := "o1";
     brokerapi.ProvisionDetails.SpaceGUID := "sp1";
     brokerapi.ProvisionDetails.RawParameters := size_2Gi_once |}.

Definition two_Gi : resource.Quantity :=
  {| resource.value := 2147483648; resource.scale := 0;
     resource.format := resource.BinarySI |}.

Definition provision_unknown : brokerapi.ProvisionDetails.t :=
  {| brokerapi.ProvisionDetails.ServiceID := "s1";
     brokerapi.ProvisionDetails.PlanID := "p9";
     brokerapi.ProvisionDetails.OrganizationGUID := "o1";
     brokerapi.ProvisionDetails.SpaceGUID := "sp1";
     brokerapi.ProvisionDetails.RawParameters := "" |}.

Definition provision_no_plan : brokerapi.ProvisionDetails.t :=
  {| brokerapi.ProvisionDetails.ServiceID := "s1";
     brokerapi.ProvisionDetails.PlanID := "";
     brokerapi.ProvisionDetails.OrganizationGUID := "o1";
     brokerapi.ProvisionDetails.SpaceGUID := "sp1";
     brokerapi.ProvisionDetails.RawParameters := "" |}.

(** What the scenario's [Bind] returns. *)
Definition bound_b1 : brokerapi.Binding.t :=
  {| brokerapi.Binding.IsAsync := false;
     brokerapi.Binding.OperationData := "";
     brokerapi.Binding.Credentials := Some {["volume_id" := "i1"]};
     brokerapi.Binding.SyslogDrainURL := "";
     brokerapi.Binding.RouteServiceURL := "";
     brokerapi.Binding.VolumeMounts := [volumeMount "gold" "/mnt" "i1"] |}.

(** Requests whose parameters are the one byte of an opening brace. *)
Definition provision_p1_bad : brokerapi.ProvisionDetails.t :=
  {| brokerapi.ProvisionDetails.ServiceID := "s1";
     brokerapi.ProvisionDetails.PlanID := "p1";
     brokerapi.ProvisionDetails.OrganizationGUID := "o1";
     brokerapi.ProvisionDetails.SpaceGUID := "sp1";
     brokerapi.ProvisionDetails.RawParameters := "{" |}.

Definition bind_bad : brokerapi.BindDetails.t :=
  {| brokerapi.BindDetails.AppGUID := "a1";
     brokerapi.BindDetails.PlanID := "p1";
     brokerapi.BindDetails.ServiceID := "s1";
     brokerapi.BindDetails.RawParameters := "{" |}.

(** A free plan, for a catalog whose plans differ in their flag. *)
Definition p0 : config.Plan :=
  {| config.ID := "p0"; config.Name := "trial"; config.Description := "";
     config.StorageClass := Some "standard"; config.Free := true;
     config.DefaultSize := "1Gi"; config.DefaultAccessMode := "" |}.

End scenario.


(** * Properties *)

Import kubernetes broker.
Import statements.
Open Scope list_scope.

(** ** Plan lookup *)

Lemma Provision_plan_Some plans planID plan :
  Provision_plan plans planID = Some plan →
  plan ∈ plans ∧ config.ID plan = planID.
Proof.
  induction plans as [|p rest IH]; simpl; [done|].
  case_decide as Hid.
  - intros [= <-]. split; [apply list_elem_of_here | done].
  - intros Hrest. destruct (IH Hrest) as [Hin Heq].
    split; [by apply list_elem_of_further | done].
Qed.

Lemma Provision_plan_None plans planID :
  Provision_plan plans planID = None ↔
  ∀ plan, plan ∈ plans → config.ID plan ≠ planID.
Proof.
  induction plans as [|p rest IH]; simpl.
  - split; [|done]. intros _ plan Hin. by apply not_elem_of_nil in Hin.
  - case_decide as Hid.
    + split; [done|]. intros Hall. destruct (Hall p); [apply list_elem_of_here | done].
    + rewrite IH. split.
      * intros Hall plan [->|Hin]%elem_of_cons; auto.
      * intros Hall plan Hin. apply Hall. by apply list_elem_of_further.
Qed.

Lemma Provision_plan_is_Some plans planID plan :
  plan ∈ plans → config.ID plan = planID →
  is_Some (Provision_plan plans planID).
Proof.
  intros Hin Hid.
  destruct (Provision_plan plans planID) eqn:Hfind; [by eexists|].
  rewrite Provision_plan_None in Hfind. by destruct (Hfind plan Hin).
Qed.

Section any_client.
Context {S : Type} `{!PersistentVolumeClaimInterface S} `{!Libraries}.
Implicit Types (b : KubeVolumeBroker S) (k : Interface S).

Lemma after_Get_cluster k ns name : cluster (after_Get k ns name) = cluster k.
Proof. reflexivity. Qed.

Lemma after_Get_calls k ns name :
  calls (after_Get k ns name) = calls k ++ [CallGet ns name].
Proof. reflexivity. Qed.

Lemma instanceExists_found b instanceID pvc :
  Get (cluster (KubeClient b)) (config.Namespace (Config b)) instanceID
    = inr pvc →
  instanceExists b instanceID
    = (Exists pvc,
       after_Get (KubeClient b) (config.Namespace (Config b)) instanceID).
Proof. intros Hget. unfold instanceExists, doGet. by rewrite Hget. Qed.

Lemma instanceExists_not_found b instanceID err :
  Get (cluster (KubeClient b)) (config.Namespace (Config b)) instanceID
    = inl err →
  apierrors.IsNotFound (Some err) = true →
  instanceExists b instanceID
    = (NotExists,
       after_Get (KubeClient b) (config.Namespace (Config b)) instanceID).
Proof.
  intros Hget Hnf. unfold instanceExists, doGet. by rewrite Hget, Hnf.
Qed.

(** C1. When the claim of an instance is in the store, [Provision] with
    that identifier and the identifier of a plan of the catalog returns
    [ErrInstanceAlreadyExists].  It has sent the client one [Get] and
    nothing else, so no [Create] and no [Update]; the cluster is the one
    it started from and still holds the same claim. *)
Theorem Provision_existing_instance b instanceID serviceDetails asyncAllowed
    plan pvc :
  brokerapi.ProvisionDetails.PlanID serviceDetails ≠ "" →
  plan ∈ config.Plans (config.ServiceConfiguration_ (Config b)) →
  config.ID plan = brokerapi.ProvisionDetails.PlanID serviceDetails →
  Get (cluster (KubeClient b)) (config.Namespace (Config b)) instanceID
    = inr pvc →
  ∃ k,
    Provision b instanceID serviceDetails asyncAllowed
      = (brokerapi.ProvisionedServiceSpec.zero,
         Some ErrInstanceAlreadyExists, k)
    ∧ calls k
      = calls (KubeClient b)
        ++ [CallGet (config.Namespace (Config b)) instanceID]
    ∧ cluster k = cluster (KubeClient b)
    ∧ Get (cluster k) (config.Namespace (Config b)) instanceID = inr pvc.
Proof.
  intros Hne Hin Hid Hget.
  destruct (Provision_plan_is_Some _ _ _ Hin Hid) as [found Hfound].
  exists (after_Get (KubeClient b) (config.Namespace (Config b)) instanceID).
  split; [|by rewrite after_Get_calls, after_Get_cluster].
  unfold Provision. rewrite decide_False by done.
  rewrite Hfound, (instanceExists_found _ _ _ Hget). reflexivity.
Qed.

(** C2. When [Get] answers not-found for the claim of an instance, each
    of [Deprovision], [Bind], [Unbind], [GetInstance] and [GetBinding]
    returns [ErrInstanceDoesNotExist], having sent that one [Get] and
    left the cluster as it was. *)
Theorem absent_instance_does_not_exist b instanceID bindingID
    deprovisionDetails bindDetails unbindDetails asyncAllowed err :
  Get (cluster (KubeClient b)) (config.Namespace (Config b)) instanceID
    = inl err →
  apierrors.IsNotFound (Some err) = true →
  let k := after_Get (KubeClient b) (config.Namespace (Config b)) instanceID in
  cluster k = cluster (KubeClient b)
  ∧ Deprovision b instanceID deprovisionDetails asyncAllowed
    = (brokerapi.DeprovisionServiceSpec.zero, Some ErrInstanceDoesNotExist, k)
  ∧ Bind b instanceID bindingID bindDetails asyncAllowed
    = (brokerapi.Binding.zero, Some ErrInstanceDoesNotExist, k)
  ∧ Unbind b instanceID bindingID unbindDetails asyncAllowed
    = (brokerapi.UnbindSpec.zero, Some ErrInstanceDoesNotExist, k)
  ∧ GetInstance b instanceID
    = (brokerapi.GetInstanceDetailsSpec.zero, Some ErrInstanceDoesNotExist, k)
  ∧ GetBinding b instanceID bindingID
    = (brokerapi.GetBindingSpec.zero, Some ErrInstanceDoesNotExist, k).
Proof.
  intros Hget Hnf k.
  pose proof (instanceExists_not_found _ _ _ Hget Hnf) as Hex.
  unfold Deprovision, Bind, Unbind, GetInstance, GetBinding.
  rewrite Hex. by repeat split.
Qed.

(** The common start of a [Provision] that reaches its defaulting
    rules: a plan is found, the instance is absent and the parameters
    decode. *)
Lemma Provision_defaulting b instanceID serviceDetails asyncAllowed plan err
    user :
  brokerapi.ProvisionDetails.PlanID serviceDetails ≠ "" →
  Provision_plan (config.Plans (config.ServiceConfiguration_ (Config b)))
    (brokerapi.ProvisionDetails.PlanID serviceDetails) = Some plan →
  Get (cluster (KubeClient b)) (config.Namespace (Config b)) instanceID
    = inl err →
  apierrors.IsNotFound (Some err) = true →
  Provision_userConfig
    (brokerapi.ProvisionDetails.RawParameters serviceDetails) = inr user →
  let k := after_Get (KubeClient b) (config.Namespace (Config b)) instanceID in
  Provision b instanceID serviceDetails asyncAllowed =
  match effective_size user plan with
  | None => (brokerapi.ProvisionedServiceSpec.zero,
             Some PlanHasNoDefaultSize, k)
  | Some size =>
      match resource_ParseQuantity size with
      | inl cause => (brokerapi.ProvisionedServiceSpec.zero,
                      Some (InvalidQuantity cause), k)
      | inr quantity =>
          let created :=
            doCreate k (config.Namespace (Config b))
              (Provision_claim instanceID serviceDetails plan
                 (effective_access_mode user plan) quantity) in
          (brokerapi.ProvisionedServiceSpec.zero,
           ProvisionFailed <$> created.1, created.2)
      end
  end.
Proof.
  intros Hne Hplan Hget Hnf Huser k.
  unfold Provision. rewrite decide_False by done.
  rewrite Hplan, (instanceExists_not_found _ _ _ Hget Hnf), Huser.
  fold k. unfold effective_size, effective_access_mode.
  repeat case_decide; try done;
    try (destruct (resource_ParseQuantity _) as [cause|quantity]; [done|];
         simpl; destruct (doCreate _ _ _) as [[failure|] k']; done).
Qed.

(** C3. In a [Provision] that finds its plan, finds the instance absent
    and decodes the user's parameters, the size is the user's if it is
    not empty, else the plan's default, and with both empty the result
    is [PlanHasNoDefaultSize]; the access mode is the user's if it is
    not empty, else the plan's default, else [ReadWriteMany].  The
    size and the mode are read off the claim sent to [Create]: its
    storage request is the parsed size and its access modes are the one
    mode. *)
Theorem Provision_effective_size_and_access_mode b instanceID serviceDetails
    asyncAllowed plan err user :
  brokerapi.ProvisionDetails.PlanID serviceDetails ≠ "" →
  Provision_plan (config.Plans (config.ServiceConfiguration_ (Config b)))
    (brokerapi.ProvisionDetails.PlanID serviceDetails) = Some plan →
  Get (cluster (KubeClient b)) (config.Namespace (Config b)) instanceID
    = inl err →
  apierrors.IsNotFound (Some err) = true →
  Provision_userConfig
    (brokerapi.ProvisionDetails.RawParameters serviceDetails) = inr user →
  let k := after_Get (KubeClient b) (config.Namespace (Config b)) instanceID in
  match effective_size user plan with
  | None =>
      Provision b instanceID serviceDetails asyncAllowed
      = (brokerapi.ProvisionedServiceSpec.zero, Some PlanHasNoDefaultSize, k)
  | Some size =>
      match resource_ParseQuantity size with
      | inl cause =>
          Provision b instanceID serviceDetails asyncAllowed
          = (brokerapi.ProvisionedServiceSpec.zero,
             Some (InvalidQuantity cause), k)
      | inr quantity =>
          ∃ claim failure k',
            doCreate k (config.Namespace (Config b)) claim = (failure, k')
            ∧ Provision b instanceID serviceDetails asyncAllowed
              = (brokerapi.ProvisionedServiceSpec.zero,
                 ProvisionFailed <$> failure, k')
            ∧ calls k'
              = calls (KubeClient b)
                ++ [CallGet (config.Namespace (Config b)) instanceID;
                    CallCreate (config.Namespace (Config b)) claim]
            ∧ corev1.Name claim = instanceID
            ∧ corev1.StorageClassName (corev1.Spec claim)
              = config.StorageClass plan
            ∧ corev1.AccessModes (corev1.Spec claim)
              = [effective_access_mode user plan]
            ∧ corev1.Requests (corev1.Resources (corev1.Spec claim))
              = {["storage" := quantity]}
      end
  end.
Proof.
  intros Hne Hplan Hget Hnf Huser k.
  pose proof (Provision_defaulting b instanceID serviceDetails asyncAllowed
                plan err user Hne Hplan Hget Hnf Huser) as Hrun.
  fold k in Hrun. simpl in Hrun.
  destruct (effective_size user plan) as [size|]; [|done].
  destruct (resource_ParseQuantity size) as [cause|quantity]; [done|].
  eexists _, _, _. split; [apply surjective_pairing|].
  split; [exact Hrun|].
  split; [|done].
  unfold doCreate. destruct (Create _ _ _) as [failure s]. simpl.
  by rewrite <-app_assoc.
Qed.

(** C7. For an instance whose claim is in the store: [Bind] of a
    binding whose annotation is on the claim returns
    [ErrBindingAlreadyExists], and [Unbind] of a binding whose
    annotation is not on the claim returns [ErrBindingDoesNotExist],
    also when the claim has no annotations at all.  Either has sent one
    [Get] and nothing else, and the cluster is as it was. *)
Theorem binding_conflicts b instanceID bindingID bindDetails unbindDetails
    asyncAllowed pvc :
  Get (cluster (KubeClient b)) (config.Namespace (Config b)) instanceID
    = inr pvc →
  let k := after_Get (KubeClient b) (config.Namespace (Config b)) instanceID in
  let annotation :=
    map_index (corev1.Annotations pvc) (bindingIDAnnotation bindingID) in
  cluster k = cluster (KubeClient b)
  ∧ calls k
    = calls (KubeClient b) ++ [CallGet (config.Namespace (Config b)) instanceID]
  ∧ (is_Some annotation →
     Bind b instanceID bindingID bindDetails asyncAllowed
     = (brokerapi.Binding.zero, Some ErrBindingAlreadyExists, k))
  ∧ (annotation = None →
     Unbind b instanceID bindingID unbindDetails asyncAllowed
     = (brokerapi.UnbindSpec.zero, Some ErrBindingDoesNotExist, k))
  ∧ (map_len (corev1.Annotations pvc) = 0 →
     Unbind b instanceID bindingID unbindDetails asyncAllowed
     = (brokerapi.UnbindSpec.zero, Some ErrBindingDoesNotExist, k)).
Proof.
  intros Hget k annotation.
  pose proof (instanceExists_found _ _ _ Hget) as Hex. fold k in Hex.
  split; [done|]. split; [done|]. unfold Bind, Unbind. rewrite Hex.
  fold annotation. repeat split.
  - by intros [dir ->].
  - intros ->. by case_decide.
  - intros Hlen. by rewrite decide_True.
Qed.

(** C8. [Provision] without a plan identifier returns
    [PlanIDRequired], and with an identifier that no plan of the catalog
    has it returns [PlanNotRecognized].  In both cases the client handle
    comes back as it went in: nothing was sent, so nothing was
    created. *)
Theorem Provision_plan_errors b instanceID serviceDetails asyncAllowed :
  brokerapi.ProvisionDetails.PlanID serviceDetails = ""
  ∨ (∀ plan,
       plan ∈ config.Plans (config.ServiceConfiguration_ (Config b)) →
       config.ID plan ≠ brokerapi.ProvisionDetails.PlanID serviceDetails) →
  Provision b instanceID serviceDetails asyncAllowed
  = (brokerapi.ProvisionedServiceSpec.zero,
     Some (if decide (brokerapi.ProvisionDetails.PlanID serviceDetails = "")
           then PlanIDRequired else PlanNotRecognized),
     KubeClient b).
Proof.
  intros Hplan. unfold Provision. case_decide as Hid; [done|].
  destruct Hplan as [?|Hnone]; [done|].
  apply Provision_plan_None in Hnone. by rewrite Hnone.
Qed.

(** C9. [Update], [LastOperation] and [LastBindingOperation] return
    the empty result and no error for every input, and hand the client
    back as they got it: no request was sent and the cluster is the
    same. *)
Theorem unimplemented_operations_are_noops b instanceID bindingID
    updateDetails pollDetails asyncAllowed :
  Update b instanceID updateDetails asyncAllowed
  = (brokerapi.UpdateServiceSpec.zero, None, KubeClient b)
  ∧ LastOperation b instanceID pollDetails
    = (brokerapi.LastOperation.zero, None, KubeClient b)
  ∧ LastBindingOperation b instanceID bindingID pollDetails
    = (brokerapi.LastOperation.zero, None, KubeClient b).
Proof. by repeat split. Qed.

(** What a successful [Bind] has gone through. *)
Lemma Bind_success_inv b instanceID bindingID details asyncAllowed binding k' :
  Bind b instanceID bindingID details asyncAllowed = (binding, None, k') →
  ∃ pvc userMount storageClassName,
    let ns := config.Namespace (Config b) in
    let containerDir := Bind_containerDir userMount bindingID in
    Get (cluster (KubeClient b)) ns instanceID = inr pvc
    ∧ map_index (corev1.Annotations pvc) (bindingIDAnnotation bindingID) = None
    ∧ Bind_userMount (brokerapi.BindDetails.RawParameters details)
      = inr userMount
    ∧ corev1.StorageClassName (corev1.Spec pvc) = Some storageClassName
    ∧ doUpdate (after_Get (KubeClient b) ns instanceID) ns
        (Bind_annotate pvc bindingID containerDir) = (None, k')
    ∧ brokerapi.Binding.VolumeMounts binding
      = [volumeMount storageClassName containerDir (corev1.Name pvc)].
Proof.
  unfold Bind, instanceExists, doGet. fold (after_Get (KubeClient b)
    (config.Namespace (Config b)) instanceID).
  destruct (Get _ _ _) as [err|pvc] eqn:Hget.
  { by destruct (apierrors.IsNotFound (Some err)). }
  destruct (map_index _ _) eqn:Hann; [done|].
  destruct (Bind_userMount _) as [err|userMount] eqn:Hmount; [done|].
  destruct (doUpdate _ _ _) as [[err|] k''] eqn:Hupdate; [done|].
  simpl. destruct (corev1.StorageClassName (corev1.Spec pvc))
    as [storageClassName|] eqn:Hclass; [|done].
  intros [= <- <-]. by exists pvc, userMount, storageClassName.
Qed.

(** [Bind] up to its [Update], for a claim without the annotation. *)
Lemma Bind_updates b instanceID bindingID details asyncAllowed pvc userMount :
  let ns := config.Namespace (Config b) in
  let containerDir := Bind_containerDir userMount bindingID in
  let updated :=
    doUpdate (after_Get (KubeClient b) ns instanceID) ns
      (Bind_annotate pvc bindingID containerDir) in
  Get (cluster (KubeClient b)) ns instanceID = inr pvc →
  map_index (corev1.Annotations pvc) (bindingIDAnnotation bindingID) = None →
  Bind_userMount (brokerapi.BindDetails.RawParameters details)
    = inr userMount →
  updated.1 = None →
  Bind b instanceID bindingID details asyncAllowed =
  match corev1.StorageClassName (corev1.Spec pvc) with
  | None => (brokerapi.Binding.zero, Some InvalidResourceState, updated.2)
  | Some storageClassName =>
      ({| brokerapi.Binding.IsAsync := false;
          brokerapi.Binding.OperationData := "";
          brokerapi.Binding.Credentials :=
            Some {["volume_id" := corev1.Name pvc]};
          brokerapi.Binding.SyslogDrainURL := "";
          brokerapi.Binding.RouteServiceURL := "";
          brokerapi.Binding.VolumeMounts :=
            [volumeMount storageClassName containerDir (corev1.Name pvc)] |},
       None, updated.2)
  end.
Proof.
  intros ns containerDir updated Hget Hann Hmount Hupdate.
  unfold Bind. rewrite (instanceExists_found _ _ _ Hget), Hann, Hmount.
  fold ns containerDir updated.
  destruct updated as [failure k']. simpl in Hupdate. subst failure. simpl.
  by destruct (corev1.StorageClassName (corev1.Spec pvc)).
Qed.

Lemma map_index_Some_len (m : GoMap) key v :
  map_index m key = Some v → map_len m ≠ 0.
Proof.
  destruct m as [t|]; simpl; [|done].
  intros Hlookup Hsize. apply map_size_empty_iff in Hsize. by subst t.
Qed.

(** [GetBinding] on a claim that carries the annotation and a storage
    class. *)
Lemma GetBinding_found b instanceID bindingID pvc containerDir
    storageClassName :
  Get (cluster (KubeClient b)) (config.Namespace (Config b)) instanceID
    = inr pvc →
  map_index (corev1.Annotations pvc) (bindingIDAnnotation bindingID)
    = Some containerDir →
  corev1.StorageClassName (corev1.Spec pvc) = Some storageClassName →
  GetBinding b instanceID bindingID
  = ({| brokerapi.GetBindingSpec.Credentials := None;
        brokerapi.GetBindingSpec.SyslogDrainURL := "";
        brokerapi.GetBindingSpec.RouteServiceURL := "";
        brokerapi.GetBindingSpec.VolumeMounts :=
          [volumeMount storageClassName containerDir (corev1.Name pvc)] |},
     None,
     after_Get (KubeClient b) (config.Namespace (Config b)) instanceID).
Proof.
  intros Hget Hann Hclass. unfold GetBinding.
  rewrite (instanceExists_found _ _ _ Hget).
  rewrite decide_False by (by eapply map_index_Some_len).
  by rewrite Hann, Hclass.
Qed.

End any_client.

(** ** The in-memory client *)

Section tracker.
Implicit Types (objects : fake.Clientset) (o : corev1.PersistentVolumeClaim).

Lemma is_object_true ns name o :
  fake.is_object ns name o = true ↔
  metav1.Namespace (corev1.ObjectMeta o) = ns ∧ corev1.Name o = name.
Proof.
  unfold fake.is_object.
  rewrite andb_true_iff, !bool_decide_eq_true. done.
Qed.

Lemma tracker_find_names objects ns name o :
  fake.tracker_find objects ns name = Some o →
  metav1.Namespace (corev1.ObjectMeta o) = ns ∧ corev1.Name o = name.
Proof.
  induction objects as [|o' rest IH]; simpl; [done|].
  destruct (fake.is_object ns name o') eqn:His; [|done].
  intros [= <-]. by apply is_object_true.
Qed.

Lemma tracker_replace_find objects o objects' :
  fake.tracker_replace objects o = Some objects' →
  fake.tracker_find objects' (metav1.Namespace (corev1.ObjectMeta o))
    (corev1.Name o) = Some o.
Proof.
  revert objects'. induction objects as [|o' rest IH]; simpl; [done|].
  intros objects'.
  destruct (fake.is_object _ _ o') eqn:His.
  - intros [= <-]. simpl.
    by rewrite (proj2 (is_object_true _ _ o)).
  - destruct (fake.tracker_replace rest o) as [rest'|]; [|done].
    intros [= <-]. simpl. rewrite His. by apply IH.
Qed.

Lemma tracker_find_replace objects o new :
  fake.tracker_find objects (metav1.Namespace (corev1.ObjectMeta new))
    (corev1.Name new) = Some o →
  is_Some (fake.tracker_replace objects new).
Proof.
  induction objects as [|o' rest IH]; simpl; [done|].
  destruct (fake.is_object _ _ o'); [by eexists|].
  intros Hfind. destruct (IH Hfind) as [rest' ->]. by eexists.
Qed.

Lemma propagate_same ns o :
  metav1.Namespace (corev1.ObjectMeta o) = ns → fake.propagate ns o = o.
Proof.
  intros <-. unfold fake.propagate. case_decide as Hempty; [|done].
  destruct o as [[name namespace labels annotations] spec].
  simpl in *. by subst namespace.
Qed.

Lemma Get_names objects ns name o :
  Get objects ns name = inr o →
  metav1.Namespace (corev1.ObjectMeta o) = ns ∧ corev1.Name o = name.
Proof.
  simpl. unfold fake.tracker_Get.
  destruct (fake.tracker_find objects ns name) eqn:Hfind; [|done].
  intros [= <-]. by eapply tracker_find_names.
Qed.

(** An [Update] of a claim that is in the cluster succeeds, and the
    next [Get] reads what was written. *)
Lemma Update_then_Get objects ns name o new :
  Get objects ns name = inr o →
  metav1.Namespace (corev1.ObjectMeta new) = ns →
  corev1.Name new = name →
  ∃ objects',
    kubernetes.Update objects ns new = (None, objects')
    ∧ Get objects' ns name = inr new.
Proof.
  simpl. unfold fake.tracker_Get, fake.tracker_Update.
  destruct (fake.tracker_find objects ns name) as [found|] eqn:Hfind; [|done].
  intros _ Hns Hname. rewrite (propagate_same _ _ Hns).
  rewrite decide_True by done. subst ns name.
  destruct (tracker_find_replace _ _ _ Hfind) as [objects' Hreplace].
  exists objects'. rewrite Hreplace.
  by rewrite (tracker_replace_find _ _ _ Hreplace).
Qed.

Lemma Bind_annotate_meta pvc bindingID containerDir :
  metav1.Namespace (corev1.ObjectMeta (Bind_annotate pvc bindingID containerDir))
    = metav1.Namespace (corev1.ObjectMeta pvc)
  ∧ corev1.Name (Bind_annotate pvc bindingID containerDir) = corev1.Name pvc
  ∧ corev1.Spec (Bind_annotate pvc bindingID containerDir) = corev1.Spec pvc
  ∧ map_index (corev1.Annotations (Bind_annotate pvc bindingID containerDir))
      (bindingIDAnnotation bindingID) = Some containerDir.
Proof.
  repeat split. simpl. apply lookup_insert_eq.
Qed.

Context `{!Libraries}.
Implicit Types (b : KubeVolumeBroker fake.Clientset).

(** [Bind] on the in-memory client, for a claim without the annotation:
    the update is stored whatever the storage class is. *)
Lemma Bind_stores b instanceID bindingID details asyncAllowed pvc userMount :
  let ns := config.Namespace (Config b) in
  let containerDir := Bind_containerDir userMount bindingID in
  let pvc' := Bind_annotate pvc bindingID containerDir in
  Get (cluster (KubeClient b)) ns instanceID = inr pvc →
  map_index (corev1.Annotations pvc) (bindingIDAnnotation bindingID) = None →
  Bind_userMount (brokerapi.BindDetails.RawParameters details)
    = inr userMount →
  ∃ k',
    calls k'
      = calls (KubeClient b) ++ [CallGet ns instanceID; CallUpdate ns pvc']
    ∧ Get (cluster k') ns instanceID = inr pvc'
    ∧ Bind b instanceID bindingID details asyncAllowed =
      match corev1.StorageClassName (corev1.Spec pvc) with
      | None => (brokerapi.Binding.zero, Some InvalidResourceState, k')
      | Some storageClassName =>
          ({| brokerapi.Binding.IsAsync := false;
              brokerapi.Binding.OperationData := "";
              brokerapi.Binding.Credentials :=
                Some {["volume_id" := corev1.Name pvc]};
              brokerapi.Binding.SyslogDrainURL := "";
              brokerapi.Binding.RouteServiceURL := "";
              brokerapi.Binding.VolumeMounts :=
                [volumeMount storageClassName containerDir
                   (corev1.Name pvc)] |},
           None, k')
      end.
Proof.
  intros ns containerDir pvc' Hget Hann Hmount.
  destruct (Get_names _ _ _ _ Hget) as [Hns Hname].
  destruct (Update_then_Get _ _ _ _ pvc' Hget Hns Hname)
    as (objects' & Hupdate & Hget').
  pose proof (Bind_updates b instanceID bindingID details asyncAllowed pvc
                userMount Hget Hann Hmount) as Hrun.
  fold ns containerDir pvc' in Hrun. unfold doUpdate in Hrun.
  rewrite after_Get_cluster, Hupdate in Hrun. simpl in Hrun.
  eexists. split; [|split; [|apply Hrun; done]].
  - simpl. by rewrite <-app_assoc.
  - exact Hget'.
Qed.

(** C10. On the in-memory client: when the claim of the instance is
    there, has no annotation for the binding and has no storage class,
    and the parameters decode, [Bind] returns [InvalidResourceState]
    after the [Update] has been sent and stored.  The claim in the
    cluster carries the binding's annotation although [Bind] reports
    an error. *)
Theorem Bind_nil_storage_class_after_update b instanceID bindingID details
    asyncAllowed pvc userMount :
  Get (cluster (KubeClient b)) (config.Namespace (Config b)) instanceID
    = inr pvc →
  map_index (corev1.Annotations pvc) (bindingIDAnnotation bindingID) = None →
  corev1.StorageClassName (corev1.Spec pvc) = None →
  Bind_userMount (brokerapi.BindDetails.RawParameters details)
    = inr userMount →
  ∃ k' pvc',
    Bind b instanceID bindingID details asyncAllowed
    = (brokerapi.Binding.zero, Some InvalidResourceState, k')
    ∧ calls k'
      = calls (KubeClient b)
        ++ [CallGet (config.Namespace (Config b)) instanceID;
            CallUpdate (config.Namespace (Config b)) pvc']
    ∧ Get (cluster k') (config.Namespace (Config b)) instanceID = inr pvc'
    ∧ map_index (corev1.Annotations pvc') (bindingIDAnnotation bindingID)
      = Some (Bind_containerDir userMount bindingID).
Proof.
  intros Hget Hann Hclass Hmount.
  destruct (Bind_stores b instanceID bindingID details asyncAllowed pvc
              userMount Hget Hann Hmount) as (k' & Hcalls & Hget' & Hrun).
  rewrite Hclass in Hrun.
  exists k', (Bind_annotate pvc bindingID (Bind_containerDir userMount bindingID)).
  repeat split; try done. apply Bind_annotate_meta.
Qed.

(** [GetBinding] right after a successful [Bind] on the in-memory
    client. *)
Lemma Bind_then_GetBinding b instanceID bindingID details asyncAllowed binding
    k' :
  Bind b instanceID bindingID details asyncAllowed = (binding, None, k') →
  ∃ storageClassName containerDir,
    brokerapi.Binding.VolumeMounts binding
    = [volumeMount storageClassName containerDir instanceID]
    ∧ GetBinding (on (Config b) k') instanceID bindingID
      = ({| brokerapi.GetBindingSpec.Credentials := None;
            brokerapi.GetBindingSpec.SyslogDrainURL := "";
            brokerapi.GetBindingSpec.RouteServiceURL := "";
            brokerapi.GetBindingSpec.VolumeMounts :=
              [volumeMount storageClassName containerDir instanceID] |},
         None, after_Get k' (config.Namespace (Config b)) instanceID).
Proof.
  intros Hbind.
  destruct (Bind_success_inv _ _ _ _ _ _ _ Hbind)
    as (pvc & userMount & storageClassName & Hget & Hann & Hmount & Hclass
        & Hupdate & Hmounts).
  destruct (Bind_stores b instanceID bindingID details asyncAllowed pvc
              userMount Hget Hann Hmount) as (k'' & _ & Hget' & Hrun).
  rewrite Hbind, Hclass in Hrun. injection Hrun as _ <-.
  destruct (Get_names _ _ _ _ Hget) as [_ Hname].
  exists storageClassName, (Bind_containerDir userMount bindingID).
  rewrite Hmounts, Hname. split; [done|].
  rewrite <-Hname at 2.
  destruct (Bind_annotate_meta pvc bindingID
              (Bind_containerDir userMount bindingID))
    as (_ & Hname' & Hspec & Hann').
  rewrite <-Hname'.
  apply (GetBinding_found (on (Config b) k')); [exact Hget'|exact Hann'|].
  by rewrite Hspec.
Qed.

(** C5. On the in-memory client: after a [Provision] and a successful
    [Bind] on what it left, [GetBinding] on what the [Bind] left
    succeeds, and its one mount is the one mount [Bind] returned, so
    driver, container path, mode, device type and device identifier
    agree.  [GetBinding] only reads. *)
Theorem Provision_Bind_GetBinding b instanceID bindingID provisionDetails
    bindDetails provisionAsync bindAsync provisioned k1 binding k2 :
  Provision b instanceID provisionDetails provisionAsync
    = (provisioned, None, k1) →
  Bind (on (Config b) k1) instanceID bindingID bindDetails bindAsync
    = (binding, None, k2) →
  ∃ mount got k3,
    GetBinding (on (Config b) k2) instanceID bindingID = (got, None, k3)
    ∧ brokerapi.Binding.VolumeMounts binding = [mount]
    ∧ brokerapi.GetBindingSpec.VolumeMounts got = [mount]
    ∧ cluster k3 = cluster k2.
Proof.
  intros _ Hbind.
  destruct (Bind_then_GetBinding _ _ _ _ _ _ _ Hbind)
    as (storageClassName & containerDir & Hmounts & Hget).
  eexists _, _, _. split; [exact Hget|]. by rewrite Hmounts.
Qed.

(** C6, as amended.  With the catalog of the one plan [p1] and an empty
    cluster, for libraries that parse [1Gi] and decode the bytes
    [{"dir":"/mnt"}] to the directory [/mnt]: [Provision] of [i1]
    creates the claim [i1] with that capacity, class [gold] and access
    mode [ReadWriteMany]; [Bind] of [b1] puts the annotation
    [eirini-broker-binding-b1] with value [/mnt] on it and returns the
    mount with driver [gold], path [/mnt] and device [i1], written out
    field by field; [Unbind] takes the annotation off; [Deprovision]
    deletes the claim. *)
Theorem scenario_lifecycle q :
  resource_ParseQuantity "1Gi" = inr q →
  json_Unmarshal_userMountConfiguration scenario.dir_mnt
    = inr {| Directory := "/mnt" |} →
  let cfg := scenario.catalog [scenario.p1] in
  Provision (on cfg (fake.client fake.NewSimpleClientset)) "i1"
    scenario.provision_p1 false
  = (brokerapi.ProvisionedServiceSpec.zero, None, scenario.after_provision q)
  ∧ cluster (scenario.after_provision q) = [scenario.claim q None]
  ∧ (∃ binding,
       Bind (on cfg (scenario.after_provision q)) "i1" "b1"
         scenario.bind_mnt false
       = (binding, None, scenario.after_bind q)
       ∧ brokerapi.Binding.VolumeMounts binding
         = [ {| brokerapi.VolumeMount.Driver := "gold";
                brokerapi.VolumeMount.ContainerDir := "/mnt";
                brokerapi.VolumeMount.Mode := "rw";
                brokerapi.VolumeMount.DeviceType := "shared";
                brokerapi.VolumeMount.Device :=
                  {| brokerapi.SharedDevice.VolumeId := "i1" |} |} ])
  ∧ cluster (scenario.after_bind q)
    = [scenario.claim q (Some {["eirini-broker-binding-b1" := "/mnt"]})]
  ∧ Unbind (on cfg (scenario.after_bind q)) "i1" "b1"
      scenario.unbind_p1 false
    = (brokerapi.UnbindSpec.zero, None, scenario.after_unbind q)
  ∧ cluster (scenario.after_unbind q) = [scenario.claim q (Some ∅)]
  ∧ Deprovision (on cfg (scenario.after_unbind q)) "i1"
      scenario.deprovision_p1 false
    = (brokerapi.DeprovisionServiceSpec.zero, None,
       scenario.after_deprovision q)
  ∧ cluster (scenario.after_deprovision q) = [].
Proof.
  intros Hq Hdir cfg. vm_compute in Hq, Hdir.
  split; [vm_compute; rewrite Hq; reflexivity|].
  split; [reflexivity|].
  split.
  { eexists. split; [vm_compute; rewrite Hdir; reflexivity|reflexivity]. }
  split; [reflexivity|].
  split; [vm_compute; reflexivity|].
  split; [reflexivity|].
  split; [vm_compute; reflexivity|reflexivity].
Qed.

End tracker.

(** ** The catalog listing *)

Section listing.
Context {S : Type}.
Implicit Types (b : KubeVolumeBroker S) (h : Heap).

(** The loop fills the slots from [idx] on in catalog order, and the
    one cell [plan_Free] ends with the flag of the last plan. *)
Lemma Services_range_spec plan_Free plans : ∀ idx planList h,
  (idx + List.length plans ≤ List.length planList)%nat →
  Services_range plan_Free idx plans planList h
  = (take idx planList ++ (listed plan_Free <$> plans)
       ++ drop (idx + List.length plans) planList,
     match last plans with
     | Some p => <[plan_Free := config.Free p]> h
     | None => h
     end).
Proof.
  induction plans as [|p rest IH]; intros idx planList h Hlen; simpl in *.
  - by rewrite Nat.add_0_r, take_drop.
  - rewrite IH by (rewrite length_insert; lia).
    rewrite (take_S_r _ _ (listed plan_Free p))
      by (apply list_lookup_insert_eq; lia).
    rewrite take_insert_ge by lia.
    rewrite drop_insert_lt by lia.
    rewrite <-app_assoc. simpl.
    replace (idx + Datatypes.S (List.length rest))
      with (Datatypes.S (idx + List.length rest)) by lia.
    f_equal. rewrite last_cons.
    destruct (last rest); [by rewrite list_insert_insert_eq | done].
Qed.

(** What [Services] returns: no error, one service, its plans in
    catalog order with their names, descriptions and identifiers, and
    every [Free] pointer at the same new cell.  The cell holds the flag
    of the last plan of the catalog, and [false] for an empty catalog. *)
Lemma Services_spec b h :
  let sc := config.ServiceConfiguration_ (Config b) in
  ∃ service,
    Services b h
    = ([service], None,
       h ++ [default false (config.Free <$> last (config.Plans sc))])
    ∧ brokerapi.Service.Plans service
      = listed (List.length h) <$> config.Plans sc.
Proof.
  intros sc. unfold Services. fold sc.
  rewrite Services_range_spec by (by rewrite length_replicate).
  rewrite take_0, drop_replicate, Nat.sub_diag. simpl. rewrite app_nil_r.
  assert (match last (config.Plans sc) with
          | Some p => <[List.length h := config.Free p]> (h ++ [false])
          | None => h ++ [false]
          end
          = h ++ [default false (config.Free <$> last (config.Plans sc))])
    as ->.
  { destruct (last (config.Plans sc)) as [p|]; simpl; [|done].
    replace (List.length h) with (List.length h + 0) at 1 by lia.
    by rewrite insert_app_r. }
  eexists. split; reflexivity.
Qed.

(** Every plan [Services] lists reads its free flag from the last plan
    of the catalog. *)
Lemma Services_listed_free_is_last b h services err h' service plan :
  Services b h = (services, err, h') →
  service ∈ services →
  plan ∈ brokerapi.Service.Plans service →
  listed_free h' plan
  = config.Free
      <$> last (config.Plans (config.ServiceConfiguration_ (Config b))).
Proof.
  destruct (Services_spec b h) as (service' & -> & Hplans).
  intros [= <- <- <-] ->%list_elem_of_singleton Hin.
  rewrite Hplans in Hin. apply list_elem_of_fmap in Hin as (p & -> & Hp).
  unfold listed_free. simpl.
  rewrite lookup_app_r, Nat.sub_diag by lia. simpl.
  destruct (last _) eqn:Hlast; [done|].
  apply last_None in Hlast. rewrite Hlast in Hp. by apply not_elem_of_nil in Hp.
Qed.

End listing.

(** C4, at a catalog of a free plan followed by a paid one.  [Services]
    returns one service with the two plans in catalog order, and both
    listed plans read [false] as their free flag, where the catalog has
    [true] and [false]: the listed flag of the first plan is not the
    flag of the configured plan. *)
Theorem Services_free_flags_share_one_cell :
  ∃ service h,
    Services
      (on (scenario.catalog [scenario.p0; scenario.p1])
          (fake.client fake.NewSimpleClientset)) []
    = ([service], None, h)
    ∧ brokerapi.ServicePlan.ID <$> brokerapi.Service.Plans service
      = ["p0"; "p1"]
    ∧ config.Free <$> [scenario.p0; scenario.p1] = [true; false]
    ∧ listed_free h <$> brokerapi.Service.Plans service
      = [Some false; Some false].
Proof. eexists _, _. split; [reflexivity|]. by repeat split. Qed.

(** ** The scenario on the reference libraries *)

Section examples.
Import scenario.

(** C6, as stated, fails on the annotation's name: after the scenario's
    [Provision] and [Bind] have succeeded, no claim in the cluster has
    an annotation [binding-b1] at all. *)
Lemma scenario_annotation_binding_b1_absent :
  let provisioned := Provision (on cfg empty) "i1" provision_p1 false in
  let bound := Bind (on cfg provisioned.2) "i1" "b1" bind_mnt false in
  provisioned.1.2 = None
  ∧ bound.1.2 = None
  ∧ cluster bound.2 ≠ []
  ∧ ∀ pvc, pvc ∈ cluster bound.2 →
           map_index (corev1.Annotations pvc) "binding-b1" = None.
Proof.
  vm_compute. repeat split; try done.
  by intros pvc ->%list_elem_of_singleton.
Qed.

Lemma Provision_existing_instance_witness :
  (brokerapi.ProvisionDetails.PlanID provision_p1 ≠ ""
   ∧ p1 ∈ config.Plans (config.ServiceConfiguration_ cfg)
   ∧ config.ID p1 = brokerapi.ProvisionDetails.PlanID provision_p1
   ∧ Get (cluster (after_provision one_Gi)) "eirini" "i1"
     = inr (claim one_Gi None))
  ∧ ∃ k,
      Provision (on cfg (after_provision one_Gi)) "i1" provision_p1 false
      = (brokerapi.ProvisionedServiceSpec.zero,
         Some ErrInstanceAlreadyExists, k)
      ∧ calls k = calls (after_provision one_Gi) ++ [CallGet "eirini" "i1"]
      ∧ cluster k = cluster (after_provision one_Gi)
      ∧ Get (cluster k) "eirini" "i1" = inr (claim one_Gi None).
Proof.
  assert (brokerapi.ProvisionDetails.PlanID provision_p1 ≠ "") as H1
    by discriminate.
  assert (p1 ∈ config.Plans (config.ServiceConfiguration_ cfg)) as H2
    by apply list_elem_of_here.
  split; [by repeat split|].
  exact (Provision_existing_instance (on cfg (after_provision one_Gi)) "i1"
           provision_p1 false p1 (claim one_Gi None) H1 H2 eq_refl eq_refl).
Defined.

Lemma absent_instance_does_not_exist_witness :
  let gone := after_deprovision one_Gi in
  (Get (cluster gone) "eirini" "i1" = inl (fake.NewNotFound "i1")
   ∧ apierrors.IsNotFound (Some (fake.NewNotFound "i1")) = true)
  ∧ let k := after_Get gone "eirini" "i1" in
    cluster k = cluster gone
    ∧ Deprovision (on cfg gone) "i1" deprovision_p1 false
      = (brokerapi.DeprovisionServiceSpec.zero,
         Some ErrInstanceDoesNotExist, k)
    ∧ Bind (on cfg gone) "i1" "b1" bind_mnt false
      = (brokerapi.Binding.zero, Some ErrInstanceDoesNotExist, k)
    ∧ Unbind (on cfg gone) "i1" "b1" unbind_p1 false
      = (brokerapi.UnbindSpec.zero, Some ErrInstanceDoesNotExist, k)
    ∧ GetInstance (on cfg gone) "i1"
      = (brokerapi.GetInstanceDetailsSpec.zero,
         Some ErrInstanceDoesNotExist, k)
    ∧ GetBinding (on cfg gone) "i1" "b1"
      = (brokerapi.GetBindingSpec.zero, Some ErrInstanceDoesNotExist, k).
Proof.
  intros gone. split; [by split|].
  exact (absent_instance_does_not_exist (on cfg gone) "i1" "b1"
           deprovision_p1 bind_mnt unbind_p1 false (fake.NewNotFound "i1")
           eq_refl eq_refl).
Defined.

Lemma Provision_effective_size_and_access_mode_witness :
  (brokerapi.ProvisionDetails.PlanID provision_p1 ≠ ""
   ∧ Provision_plan (config.Plans (config.ServiceConfiguration_ cfg))
       (brokerapi.ProvisionDetails.PlanID provision_p1) = Some p1
   ∧ Get (cluster empty) "eirini" "i1" = inl (fake.NewNotFound "i1")
   ∧ apierrors.IsNotFound (Some (fake.NewNotFound "i1")) = true
   ∧ Provision_userConfig
       (brokerapi.ProvisionDetails.RawParameters provision_p1)
     = inr {| Size := ""; AccessMode := "" |})
  ∧ (∃ claim failure k',
      doCreate (after_Get empty "eirini" "i1") "eirini" claim = (failure, k')
      ∧ Provision (on cfg empty) "i1" provision_p1 false
        = (brokerapi.ProvisionedServiceSpec.zero,
           ProvisionFailed <$> failure, k')
      ∧ calls k'
        = calls empty ++ [CallGet "eirini" "i1"; CallCreate "eirini" claim]
      ∧ corev1.Name claim = "i1"
      ∧ corev1.StorageClassName (corev1.Spec claim) = Some "gold"
      ∧ corev1.AccessModes (corev1.Spec claim) = ["ReadWriteMany"]
      ∧ corev1.Requests (corev1.Resources (corev1.Spec claim))
        = {["storage" := one_Gi]})
  ∧ (Provision_userConfig
       (brokerapi.ProvisionDetails.RawParameters provision_p1_custom)
     = inr {| Size := "2Gi"; AccessMode := "ReadWriteOnce" |}
     ∧ ∃ claim failure k',
         doCreate (after_Get empty "eirini" "i1") "eirini" claim
           = (failure, k')
         ∧ Provision (on cfg empty) "i1" provision_p1_custom false
           = (brokerapi.ProvisionedServiceSpec.zero,
              ProvisionFailed <$> failure, k')
         ∧ calls k'
           = calls empty ++ [CallGet "eirini" "i1"; CallCreate "eirini" claim]
         ∧ corev1.Name claim = "i1"
         ∧ corev1.StorageClassName (corev1.Spec claim) = Some "gold"
         ∧ corev1.AccessModes (corev1.Spec claim) = ["ReadWriteOnce"]
         ∧ corev1.Requests (corev1.Resources (corev1.Spec claim))
           = {["storage" := two_Gi]})
  ∧ (Provision_plan [p2] (brokerapi.ProvisionDetails.PlanID provision_p2)
     = Some p2
     ∧ Provision (on (catalog [p2]) empty) "i1" provision_p2 false
       = (brokerapi.ProvisionedServiceSpec.zero, Some PlanHasNoDefaultSize,
          after_Get empty "eirini" "i1")).
Proof.
  assert (brokerapi.ProvisionDetails.PlanID provision_p1 ≠ "") as H1
    by discriminate.
  assert (brokerapi.ProvisionDetails.PlanID provision_p2 ≠ "") as H2
    by discriminate.
  split; [by repeat split|].
  split.
  { exact (Provision_effective_size_and_access_mode (on cfg empty) "i1"
             provision_p1 false p1 (fake.NewNotFound "i1")
             {| Size := ""; AccessMode := "" |} H1 eq_refl eq_refl eq_refl
             eq_refl). }
  split.
  { split; [reflexivity|].
    exact (Provision_effective_size_and_access_mode (on cfg empty) "i1"
             provision_p1_custom false p1 (fake.NewNotFound "i1")
             {| Size := "2Gi"; AccessMode := "ReadWriteOnce" |} H1 eq_refl
             eq_refl eq_refl eq_refl). }
  split; [reflexivity|].
  exact (Provision_effective_size_and_access_mode (on (catalog [p2]) empty)
           "i1" provision_p2 false p2 (fake.NewNotFound "i1")
           {| Size := ""; AccessMode := "" |} H2 eq_refl eq_refl eq_refl
           eq_refl).
Defined.

Lemma binding_conflicts_witness :
  Get (cluster (after_bind one_Gi)) "eirini" "i1"
    = inr (claim one_Gi (Some binding_b1))
  ∧ (is_Some (map_index (Some binding_b1) (bindingIDAnnotation "b1"))
     ∧ Bind (on cfg (after_bind one_Gi)) "i1" "b1" bind_mnt false
       = (brokerapi.Binding.zero, Some ErrBindingAlreadyExists,
          after_Get (after_bind one_Gi) "eirini" "i1"))
  ∧ (map_index (Some binding_b1) (bindingIDAnnotation "b2") = None
     ∧ Unbind (on cfg (after_bind one_Gi)) "i1" "b2" unbind_p1 false
       = (brokerapi.UnbindSpec.zero, Some ErrBindingDoesNotExist,
          after_Get (after_bind one_Gi) "eirini" "i1"))
  ∧ (map_len (corev1.Annotations (claim one_Gi None)) = 0
     ∧ Unbind (on cfg (after_provision one_Gi)) "i1" "b1" unbind_p1 false
       = (brokerapi.UnbindSpec.zero, Some ErrBindingDoesNotExist,
          after_Get (after_provision one_Gi) "eirini" "i1")).
Proof.
  assert (is_Some (map_index (Some binding_b1) (bindingIDAnnotation "b1")))
    as Hb1 by (by eexists).
  pose proof (binding_conflicts (on cfg (after_bind one_Gi)) "i1" "b1"
                bind_mnt unbind_p1 false (claim one_Gi (Some binding_b1))
                eq_refl) as (_ & _ & Hbind & _ & _).
  pose proof (binding_conflicts (on cfg (after_bind one_Gi)) "i1" "b2"
                bind_mnt unbind_p1 false (claim one_Gi (Some binding_b1))
                eq_refl) as (_ & _ & _ & Hunbind & _).
  pose proof (binding_conflicts (on cfg (after_provision one_Gi)) "i1" "b1"
                bind_mnt unbind_p1 false (claim one_Gi None)
                eq_refl) as (_ & _ & _ & _ & Hnone).
  split; [reflexivity|].
  split; [split; [exact Hb1 | exact (Hbind Hb1)]|].
  split; [split; [reflexivity | exact (Hunbind eq_refl)]|].
  split; [reflexivity | exact (Hnone eq_refl)].
Defined.

Lemma Provision_plan_errors_witness :
  ((∀ plan, plan ∈ config.Plans (config.ServiceConfiguration_ cfg) →
            config.ID plan ≠ "p9")
   ∧ Provision (on cfg empty) "i1" provision_unknown false
     = (brokerapi.ProvisionedServiceSpec.zero, Some PlanNotRecognized, empty))
  ∧ (brokerapi.ProvisionDetails.PlanID provision_no_plan = ""
     ∧ Provision (on cfg empty) "i1" provision_no_plan false
       = (brokerapi.ProvisionedServiceSpec.zero, Some PlanIDRequired, empty)).
Proof.
  assert (∀ plan, plan ∈ config.Plans (config.ServiceConfiguration_ cfg) →
                  config.ID plan ≠ "p9") as Hnone.
  { intros plan ->%list_elem_of_singleton. discriminate. }
  split.
  - split; [exact Hnone|].
    exact (Provision_plan_errors (on cfg empty) "i1" provision_unknown false
             (or_intror Hnone)).
  - split; [reflexivity|].
    exact (Provision_plan_errors (on cfg empty) "i1" provision_no_plan false
             (or_introl eq_refl)).
Defined.

Lemma Bind_nil_storage_class_after_update_witness :
  (Get (cluster (fake.client [bare_claim])) "eirini" "i1" = inr bare_claim
   ∧ map_index (corev1.Annotations bare_claim) (bindingIDAnnotation "b1")
     = None
   ∧ corev1.StorageClassName (corev1.Spec bare_claim) = None
   ∧ Bind_userMount (brokerapi.BindDetails.RawParameters bind_mnt)
     = inr {| Directory := "/mnt" |})
  ∧ ∃ k' pvc',
      Bind (on cfg (fake.client [bare_claim])) "i1" "b1" bind_mnt false
      = (brokerapi.Binding.zero, Some InvalidResourceState, k')
      ∧ calls k' = [CallGet "eirini" "i1"; CallUpdate "eirini" pvc']
      ∧ Get (cluster k') "eirini" "i1" = inr pvc'
      ∧ map_index (corev1.Annotations pvc') (bindingIDAnnotation "b1")
        = Some "/mnt".
Proof.
  split; [by repeat split|].
  exact (Bind_nil_storage_class_after_update
           (on cfg (fake.client [bare_claim])) "i1" "b1" bind_mnt false
           bare_claim {| Directory := "/mnt" |} eq_refl eq_refl eq_refl
           eq_refl).
Defined.

Lemma Provision_Bind_GetBinding_witness :
  let bound := Bind (on cfg (after_provision one_Gi)) "i1" "b1" bind_mnt false in
  (Provision (on cfg empty) "i1" provision_p1 false
   = (brokerapi.ProvisionedServiceSpec.zero, None, after_provision one_Gi)
   ∧ bound = (bound.1.1, None, after_bind one_Gi))
  ∧ ∃ mount got k3,
      GetBinding (on cfg (after_bind one_Gi)) "i1" "b1" = (got, None, k3)
      ∧ brokerapi.Binding.VolumeMounts bound.1.1 = [mount]
      ∧ brokerapi.GetBindingSpec.VolumeMounts got = [mount]
      ∧ cluster k3 = cluster (after_bind one_Gi).
Proof.
  intros bound.
  assert (Provision (on cfg empty) "i1" provision_p1 false
          = (brokerapi.ProvisionedServiceSpec.zero, None,
             after_provision one_Gi)) as H1 by (vm_compute; reflexivity).
  assert (bound = (bound.1.1, None, after_bind one_Gi)) as H2
    by (vm_compute; reflexivity).
  split; [by split|].
  exact (Provision_Bind_GetBinding (on cfg empty) "i1" "b1" provision_p1
           bind_mnt false false _ _ _ _ H1 H2).
Defined.

Lemma scenario_lifecycle_witness :
  (resource_ParseQuantity "1Gi" = inr one_Gi
   ∧ json_Unmarshal_userMountConfiguration dir_mnt
     = inr {| Directory := "/mnt" |})
  ∧ Provision (on cfg empty) "i1" provision_p1 false
    = (brokerapi.ProvisionedServiceSpec.zero, None, after_provision one_Gi)
  ∧ cluster (after_provision one_Gi) = [claim one_Gi None]
  ∧ (∃ binding,
       Bind (on cfg (after_provision one_Gi)) "i1" "b1" bind_mnt false
       = (binding, None, after_bind one_Gi)
       ∧ brokerapi.Binding.VolumeMounts binding
         = [ {| brokerapi.VolumeMount.Driver := "gold";
                brokerapi.VolumeMount.ContainerDir := "/mnt";
                brokerapi.VolumeMount.Mode := "rw";
                brokerapi.VolumeMount.DeviceType := "shared";
                brokerapi.VolumeMount.Device :=
                  {| brokerapi.SharedDevice.VolumeId := "i1" |} |} ])
  ∧ cluster (after_bind one_Gi)
    = [claim one_Gi (Some {["eirini-broker-binding-b1" := "/mnt"]})]
  ∧ Unbind (on cfg (after_bind one_Gi)) "i1" "b1" unbind_p1 false
    = (brokerapi.UnbindSpec.zero, None, after_unbind one_Gi)
  ∧ cluster (after_unbind one_Gi) = [claim one_Gi (Some ∅)]
  ∧ Deprovision (on cfg (after_unbind one_Gi)) "i1" deprovision_p1 false
    = (brokerapi.DeprovisionServiceSpec.zero, None, after_deprovision one_Gi)
  ∧ cluster (after_deprovision one_Gi) = [].
Proof.
  split; [by split|].
  exact (scenario_lifecycle one_Gi eq_refl eq_refl).
Defined.

End examples.

(** * Further properties of the broker *)

Section every_client.
Context {S : Type} `{!PersistentVolumeClaimInterface S} `{!Libraries}.
Implicit Types (b : KubeVolumeBroker S) (k : Interface S).

Lemma instanceExists_failed b instanceID err :
  Get (cluster (KubeClient b)) (config.Namespace (Config b)) instanceID
    = inl err →
  apierrors.IsNotFound (Some err) = false →
  instanceExists b instanceID
    = (ExistsError (errors_Wrap err "error listing persistent volumes"),
       after_Get (KubeClient b) (config.Namespace (Config b)) instanceID).
Proof.
  intros Hget Hnf. unfold instanceExists, doGet. by rewrite Hget, Hnf.
Qed.

(** X1. When [Get] fails with an error that is not a not-found status,
    every operation that looks the instance up returns that error,
    wrapped first by [instanceExists] and then with the operation's own
    context, with the zero result.  It has sent the one [Get] and
    nothing else.  For [Provision] this is after its plan checks. *)
Theorem store_failure_is_reported b instanceID bindingID provisionDetails
    deprovisionDetails bindDetails unbindDetails asyncAllowed err :
  Get (cluster (KubeClient b)) (config.Namespace (Config b)) instanceID
    = inl err →
  apierrors.IsNotFound (Some err) = false →
  let k := after_Get (KubeClient b) (config.Namespace (Config b)) instanceID in
  let cause := errors_Wrap err "error listing persistent volumes" in
  (brokerapi.ProvisionDetails.PlanID provisionDetails ≠ "" →
   is_Some (Provision_plan
              (config.Plans (config.ServiceConfiguration_ (Config b)))
              (brokerapi.ProvisionDetails.PlanID provisionDetails)) →
   Provision b instanceID provisionDetails asyncAllowed
   = (brokerapi.ProvisionedServiceSpec.zero,
      Some (errors_Wrap cause "error provisioning"), k))
  ∧ Deprovision b instanceID deprovisionDetails asyncAllowed
    = (brokerapi.DeprovisionServiceSpec.zero,
       Some (errors_Wrap cause "error deprovisioning"), k)
  ∧ Bind b instanceID bindingID bindDetails asyncAllowed
    = (brokerapi.Binding.zero, Some (errors_Wrap cause "error binding"), k)
  ∧ Unbind b instanceID bindingID unbindDetails asyncAllowed
    = (brokerapi.UnbindSpec.zero, Some (errors_Wrap cause "error unbinding"),
       k)
  ∧ GetInstance b instanceID
    = (brokerapi.GetInstanceDetailsSpec.zero,
       Some (errors_Wrap cause "error getting instance"), k)
  ∧ GetBinding b instanceID bindingID
    = (brokerapi.GetBindingSpec.zero,
       Some (errors_Wrap cause "error getting binding"), k).
Proof.
  intros Hget Hnf k cause.
  pose proof (instanceExists_failed _ _ _ Hget Hnf) as Hex.
  unfold Provision, Deprovision, Bind, Unbind, GetInstance, GetBinding.
  rewrite Hex. repeat split.
  intros Hne [plan Hplan]. rewrite decide_False by done. by rewrite Hplan.
Qed.

Lemma instanceExists_handle b instanceID :
  (instanceExists b instanceID).2
  = after_Get (KubeClient b) (config.Namespace (Config b)) instanceID.
Proof.
  unfold instanceExists, doGet.
  destruct (Get _ _ _) as [err|pvc]; [|done].
  by destruct (apierrors.IsNotFound _).
Qed.

Lemma instanceExists_same_cluster b k instanceID :
  cluster k = cluster (KubeClient b) →
  (instanceExists (on (Config b) k) instanceID).1
  = (instanceExists b instanceID).1.
Proof.
  intros Hsame. unfold instanceExists, doGet. simpl. rewrite Hsame.
  destruct (Get _ _ _) as [err|pvc]; [|done].
  by destruct (apierrors.IsNotFound _).
Qed.

(** X2. [GetInstance] and [GetBinding] only read: whatever they return,
    result or error, they have sent one [Get] and the cluster is the
    one they started from; asked again right away they return the
    same. *)
Theorem lookups_only_read b instanceID bindingID :
  let k := after_Get (KubeClient b) (config.Namespace (Config b)) instanceID in
  (GetInstance b instanceID).2 = k
  ∧ (GetBinding b instanceID bindingID).2 = k
  ∧ cluster k = cluster (KubeClient b)
  ∧ (GetInstance (on (Config b) k) instanceID).1 = (GetInstance b instanceID).1
  ∧ (GetBinding (on (Config b) k) instanceID bindingID).1
    = (GetBinding b instanceID bindingID).1.
Proof.
  intros k.
  pose proof (instanceExists_handle b instanceID) as Hhandle.
  pose proof (instanceExists_same_cluster b k instanceID eq_refl) as Hsame.
  unfold GetInstance, GetBinding.
  destruct (instanceExists b instanceID) as [found k1].
  destruct (instanceExists (on (Config b) k) instanceID) as [found' k2].
  simpl in *. subst k1 found'.
  repeat split;
    destruct found as [|pvc|err]; try done;
    repeat (case_decide || case_match); done.
Qed.

(** The label table [Provision] writes, read back by key. *)
Lemma Provision_claim_labels instanceID serviceDetails plan accessMode quantity :
  let labels :=
    corev1.Labels
      (Provision_claim instanceID serviceDetails plan accessMode quantity) in
  map_index labels "service-id"
    = Some (brokerapi.ProvisionDetails.ServiceID serviceDetails)
  ∧ map_index labels "plan-id"
    = Some (brokerapi.ProvisionDetails.PlanID serviceDetails)
  ∧ map_index labels "organization-id"
    = Some (brokerapi.ProvisionDetails.OrganizationGUID serviceDetails)
  ∧ map_index labels "space-id"
    = Some (brokerapi.ProvisionDetails.SpaceGUID serviceDetails).
Proof. simpl. repeat split; by simplify_map_eq. Qed.

(** X3. Whatever its input, [Provision] returns the zero result (not
    asynchronous, no dashboard URL) and sends nothing, or one [Get], or
    one [Get] and then one [Create]; it never updates or deletes.  The
    claim it creates is named after the instance, has no annotations,
    carries the plan's storage class and the four identifiers of the
    request as labels. *)
Theorem Provision_requests b instanceID serviceDetails asyncAllowed :
  let ns := config.Namespace (Config b) in
  let done := Provision b instanceID serviceDetails asyncAllowed in
  done.1.1 = brokerapi.ProvisionedServiceSpec.zero
  ∧ ((done.2 = KubeClient b ∧ is_Some done.1.2)
     ∨ (done.2 = after_Get (KubeClient b) ns instanceID ∧ is_Some done.1.2)
     ∨ ∃ claim plan,
         done.2 = (doCreate (after_Get (KubeClient b) ns instanceID) ns claim).2
         ∧ calls done.2
           = calls (KubeClient b)
             ++ [CallGet ns instanceID; CallCreate ns claim]
         ∧ plan ∈ config.Plans (config.ServiceConfiguration_ (Config b))
         ∧ config.ID plan = brokerapi.ProvisionDetails.PlanID serviceDetails
         ∧ corev1.Name claim = instanceID
         ∧ corev1.Annotations claim = None
         ∧ corev1.StorageClassName (corev1.Spec claim)
           = config.StorageClass plan
         ∧ map_index (corev1.Labels claim) "service-id"
           = Some (brokerapi.ProvisionDetails.ServiceID serviceDetails)
         ∧ map_index (corev1.Labels claim) "plan-id"
           = Some (brokerapi.ProvisionDetails.PlanID serviceDetails)
         ∧ map_index (corev1.Labels claim) "organization-id"
           = Some (brokerapi.ProvisionDetails.OrganizationGUID serviceDetails)
         ∧ map_index (corev1.Labels claim) "space-id"
           = Some (brokerapi.ProvisionDetails.SpaceGUID serviceDetails)).
Proof.
  intros ns done. subst done. unfold Provision.
  case_decide as Hid; [split; [done|left; by split; [|eexists]]|].
  destruct (Provision_plan _ _) as [plan|] eqn:Hplan;
    [|split; [done|left; by split; [|eexists]]].
  apply Provision_plan_Some in Hplan as [Hin Hplan].
  pose proof (instanceExists_handle b instanceID) as Hhandle.
  destruct (instanceExists b instanceID) as [found k1].
  simpl in Hhandle. subst k1. fold ns.
  destruct found as [|pvc|err];
    [|split; [done|right; left; by split; [|eexists]]..].
  destruct (Provision_userConfig _) as [err|user];
    [split; [done|right; left; by split; [|eexists]]|].
  case_decide; [split; [done|right; left; by split; [|eexists]]|].
  destruct (resource_ParseQuantity _) as [err|quantity];
    [split; [done|right; left; by split; [|eexists]]|].
  match goal with
  | |- context [doCreate ?k ?n ?c] =>
      pose proof (Provision_claim_labels instanceID serviceDetails plan
                    (corev1.AccessModes (corev1.Spec c) !!! 0) quantity)
        as (Hl1 & Hl2 & Hl3 & Hl4);
      assert (calls (doCreate k n c).2
              = calls (KubeClient b) ++ [CallGet n instanceID; CallCreate n c])
        as Hcalls
        by (unfold doCreate; destruct (Create _ _ _); simpl;
            by rewrite <-app_assoc);
      destruct (doCreate k n c) as [[failure|] k'] eqn:Hcreate;
      (split; [done|]); right; right; exists c, plan; simpl;
      by rewrite Hcreate
  end.
Qed.

(** X4. [Deprovision] does not look at its details: neither the plan nor
    the service identifier of the request is compared with anything, so
    a request with any details deletes the claim of the instance.  It
    sends one [Get], and one [Delete] of that name when the claim is
    there; it never creates or updates. *)
Theorem Deprovision_ignores_details b instanceID details details'
    asyncAllowed asyncAllowed' :
  let ns := config.Namespace (Config b) in
  let done := Deprovision b instanceID details asyncAllowed in
  done = Deprovision b instanceID details' asyncAllowed'
  ∧ done.1.1 = brokerapi.DeprovisionServiceSpec.zero
  ∧ match Get (cluster (KubeClient b)) ns instanceID with
    | inr pvc =>
        let deleted := doDelete (after_Get (KubeClient b) ns instanceID)
                         ns instanceID in
        done.2 = deleted.2
        ∧ calls done.2
          = calls (KubeClient b)
            ++ [CallGet ns instanceID; CallDelete ns instanceID]
        ∧ done.1.2
          = (λ failure,
               errors_Wrap failure
                 "error deleting persistent volume claim for deprovisioning")
            <$> deleted.1
    | inl err =>
        done.2 = after_Get (KubeClient b) ns instanceID ∧ is_Some done.1.2
    end.
Proof.
  intros ns done. subst done. split; [done|].
  unfold Deprovision, instanceExists, doGet.
  fold ns. fold (after_Get (KubeClient b) ns instanceID).
  destruct (Get _ _ _) as [err|pvc].
  - by destruct (apierrors.IsNotFound _).
  - unfold doDelete. destruct (Delete _ _ _) as [[failure|] s]; simpl;
      by rewrite <-app_assoc.
Qed.

(** X5. For a claim that is there and lacks the binding's annotation,
    with parameters that decode, [Bind] sends one [Update] whatever
    comes after: the claim it sends is the one it read with one
    annotation more.  Name, namespace, labels and spec are those read,
    every other annotation is kept, and the new one holds the mount
    directory.  When the [Update] fails, [Bind] returns its error
    wrapped and the zero result. *)
Theorem Bind_update_adds_one_annotation b instanceID bindingID details
    asyncAllowed pvc userMount :
  let ns := config.Namespace (Config b) in
  let containerDir := Bind_containerDir userMount bindingID in
  Get (cluster (KubeClient b)) ns instanceID = inr pvc →
  map_index (corev1.Annotations pvc) (bindingIDAnnotation bindingID) = None →
  Bind_userMount (brokerapi.BindDetails.RawParameters details)
    = inr userMount →
  ∃ pvc',
    let updated := doUpdate (after_Get (KubeClient b) ns instanceID) ns pvc' in
    (Bind b instanceID bindingID details asyncAllowed).2 = updated.2
    ∧ calls updated.2
      = calls (KubeClient b) ++ [CallGet ns instanceID; CallUpdate ns pvc']
    ∧ corev1.Name pvc' = corev1.Name pvc
    ∧ metav1.Namespace (corev1.ObjectMeta pvc')
      = metav1.Namespace (corev1.ObjectMeta pvc)
    ∧ corev1.Labels pvc' = corev1.Labels pvc
    ∧ corev1.Spec pvc' = corev1.Spec pvc
    ∧ (∀ key,
         map_index (corev1.Annotations pvc') key
         = if decide (key = bindingIDAnnotation bindingID)
           then Some containerDir
           else map_index (corev1.Annotations pvc) key)
    ∧ (∀ failure,
         updated.1 = Some failure →
         (Bind b instanceID bindingID details asyncAllowed).1
         = (brokerapi.Binding.zero,
            Some (errors_Wrap failure
              "error updating persistent volume claim annotations for binding"))).
Proof.
  intros ns containerDir Hget Hann Hmount.
  exists (Bind_annotate pvc bindingID containerDir).
  unfold Bind. rewrite (instanceExists_found _ _ _ Hget), Hann, Hmount.
  fold ns containerDir.
  assert (calls (doUpdate (after_Get (KubeClient b) ns instanceID) ns
                   (Bind_annotate pvc bindingID containerDir)).2
          = calls (KubeClient b)
            ++ [CallGet ns instanceID;
                CallUpdate ns (Bind_annotate pvc bindingID containerDir)])
    as Hcalls.
  { unfold doUpdate. destruct (kubernetes.Update _ _ _). simpl.
    by rewrite <-app_assoc. }
  destruct (doUpdate _ _ _) as [[failure|] k'] eqn:Hupdate; simpl in *.
  - repeat split; try done.
    + intros key. unfold Bind_annotate. simpl. case_decide as Hkey.
      * subst key. apply lookup_insert_eq.
      * rewrite lookup_insert_ne by done.
        unfold corev1.Annotations. by destruct (metav1.Annotations _).
    + by intros ? [= <-].
  - destruct (corev1.StorageClassName (corev1.Spec pvc)); simpl;
      (repeat split; try done;
       intros key; unfold Bind_annotate; simpl; case_decide as Hkey;
       [subst key; apply lookup_insert_eq
       |rewrite lookup_insert_ne by done;
        unfold corev1.Annotations; by destruct (metav1.Annotations _)]).
Qed.

(** X6. For a claim that carries the binding's annotation, [Unbind]
    sends one [Update] with the claim it read less that annotation:
    name, namespace, labels, spec and every other annotation are kept.
    Its error is the [Update]'s, wrapped, and its result the zero
    value. *)
Theorem Unbind_update_removes_one_annotation b instanceID bindingID details
    asyncAllowed pvc containerDir :
  let ns := config.Namespace (Config b) in
  Get (cluster (KubeClient b)) ns instanceID = inr pvc →
  map_index (corev1.Annotations pvc) (bindingIDAnnotation bindingID)
    = Some containerDir →
  ∃ pvc',
    let updated := doUpdate (after_Get (KubeClient b) ns instanceID) ns pvc' in
    Unbind b instanceID bindingID details asyncAllowed
    = (brokerapi.UnbindSpec.zero,
       (λ failure,
          errors_Wrap failure
            "error updating persistent volume claim annotations for unbinding")
       <$> updated.1,
       updated.2)
    ∧ calls updated.2
      = calls (KubeClient b) ++ [CallGet ns instanceID; CallUpdate ns pvc']
    ∧ corev1.Name pvc' = corev1.Name pvc
    ∧ metav1.Namespace (corev1.ObjectMeta pvc')
      = metav1.Namespace (corev1.ObjectMeta pvc)
    ∧ corev1.Labels pvc' = corev1.Labels pvc
    ∧ corev1.Spec pvc' = corev1.Spec pvc
    ∧ (∀ key,
         map_index (corev1.Annotations pvc') key
         = if decide (key = bindingIDAnnotation bindingID)
           then None
           else map_index (corev1.Annotations pvc) key).
Proof.
  intros ns Hget Hann. eexists.
  unfold Unbind. rewrite (instanceExists_found _ _ _ Hget), Hann.
  rewrite decide_False by (by eapply map_index_Some_len). fold ns.
  split.
  { destruct (doUpdate _ _ _) as [[failure|] k'] eqn:Hupdate;
      rewrite Hupdate; reflexivity. }
  split.
  { unfold doUpdate. destruct (kubernetes.Update _ _ _). simpl.
    by rewrite <-app_assoc. }
  repeat split. intros key. simpl.
  unfold corev1.Annotations in *.
  destruct (metav1.Annotations (corev1.ObjectMeta pvc)) as [t|]; [|done].
  simpl. case_decide as Hkey.
  - subst key. apply lookup_delete_eq.
  - by rewrite lookup_delete_ne.
Qed.

Lemma Bind_containerDir_nonempty userMount bindingID :
  Bind_containerDir userMount bindingID ≠ "".
Proof. unfold Bind_containerDir. by case_decide. Qed.

(** X7. What a successful [Bind] returns: it is not asynchronous, its
    credentials are the one entry [volume_id] with the claim's name, and
    it has exactly one mount, read-write and shared, whose driver is the
    claim's storage class and whose device is the claim's name.  The
    mount's directory is never empty: it is the directory of the
    parameters, and [/var/vcap/data/] followed by the binding
    identifier when the parameters are empty or give none. *)
Theorem Bind_success_result b instanceID bindingID details asyncAllowed binding
    k' :
  Bind b instanceID bindingID details asyncAllowed = (binding, None, k') →
  ∃ pvc storageClassName containerDir,
    Get (cluster (KubeClient b)) (config.Namespace (Config b)) instanceID
      = inr pvc
    ∧ corev1.StorageClassName (corev1.Spec pvc) = Some storageClassName
    ∧ containerDir ≠ ""
    ∧ (brokerapi.BindDetails.RawParameters details = "" →
       containerDir = "/var/vcap/data/" +:+ bindingID)
    ∧ (∀ userMount,
         Bind_userMount (brokerapi.BindDetails.RawParameters details)
           = inr userMount →
         containerDir
         = if decide (Directory userMount = "")
           then "/var/vcap/data/" +:+ bindingID
           else Directory userMount)
    ∧ binding
      = {| brokerapi.Binding.IsAsync := false;
           brokerapi.Binding.OperationData := "";
           brokerapi.Binding.Credentials :=
             Some {["volume_id" := corev1.Name pvc]};
           brokerapi.Binding.SyslogDrainURL := "";
           brokerapi.Binding.RouteServiceURL := "";
           brokerapi.Binding.VolumeMounts :=
             [ {| brokerapi.VolumeMount.Driver := storageClassName;
                  brokerapi.VolumeMount.ContainerDir := containerDir;
                  brokerapi.VolumeMount.Mode := "rw";
                  brokerapi.VolumeMount.DeviceType := "shared";
                  brokerapi.VolumeMount.Device :=
                    {| brokerapi.SharedDevice.VolumeId :=
                         corev1.Name pvc |} |} ] |}.
Proof.
  intros Hbind.
  destruct (Bind_success_inv _ _ _ _ _ _ _ Hbind)
    as (pvc & userMount & storageClassName & Hget & Hann & Hmount & Hclass
        & Hupdate & _).
  exists pvc, storageClassName, (Bind_containerDir userMount bindingID).
  split; [done|]. split; [done|].
  split; [apply Bind_containerDir_nonempty|].
  split.
  { intros Hraw. unfold Bind_userMount in Hmount. rewrite Hraw in Hmount.
    simpl in Hmount. by injection Hmount as <-. }
  split.
  { intros userMount' Hmount'. rewrite Hmount in Hmount'.
    by injection Hmount' as <-. }
  pose proof (Bind_updates b instanceID bindingID details asyncAllowed pvc
                userMount Hget Hann Hmount) as Hrun.
  simpl in Hrun. rewrite Hupdate, Hclass, Hbind in Hrun.
  by injection (Hrun eq_refl) as ->.
Qed.

(** X8. Parameters that are there but do not decode stop [Provision]
    and [Bind] before any write: each returns the decoder's error
    wrapped, after the one [Get], with the cluster as it was.  Empty
    parameters are never given to the decoder. *)
Theorem undecodable_parameters_write_nothing b instanceID bindingID
    provisionDetails bindDetails asyncAllowed :
  let k := after_Get (KubeClient b) (config.Namespace (Config b)) instanceID in
  (∀ err cause,
     brokerapi.ProvisionDetails.PlanID provisionDetails ≠ "" →
     is_Some (Provision_plan
                (config.Plans (config.ServiceConfiguration_ (Config b)))
                (brokerapi.ProvisionDetails.PlanID provisionDetails)) →
     Get (cluster (KubeClient b)) (config.Namespace (Config b)) instanceID
       = inl err →
     apierrors.IsNotFound (Some err) = true →
     brokerapi.ProvisionDetails.RawParameters provisionDetails ≠ "" →
     json_Unmarshal_userConfiguration
       (brokerapi.ProvisionDetails.RawParameters provisionDetails)
       = inl cause →
     Provision b instanceID provisionDetails asyncAllowed
     = (brokerapi.ProvisionedServiceSpec.zero,
        Some (InvalidParameters cause), k))
  ∧ (∀ pvc cause,
       Get (cluster (KubeClient b)) (config.Namespace (Config b)) instanceID
         = inr pvc →
       map_index (corev1.Annotations pvc) (bindingIDAnnotation bindingID)
         = None →
       brokerapi.BindDetails.RawParameters bindDetails ≠ "" →
       json_Unmarshal_userMountConfiguration
         (brokerapi.BindDetails.RawParameters bindDetails) = inl cause →
       Bind b instanceID bindingID bindDetails asyncAllowed
       = (brokerapi.Binding.zero, Some (InvalidParameters cause), k))
  ∧ cluster k = cluster (KubeClient b)
  ∧ Provision_userConfig "" = inr {| Size := ""; AccessMode := "" |}
  ∧ Bind_userMount "" = inr {| Directory := "" |}.
Proof.
  intros k.
  assert (∀ raw : string, raw ≠ "" → (0 < String.length raw)%nat) as Hlen.
  { intros [|c raw] Hraw; [done|simpl; lia]. }
  repeat split.
  - intros err cause Hne [plan Hplan] Hget Hnf Hraw Hdecode.
    unfold Provision. rewrite decide_False by done.
    rewrite Hplan, (instanceExists_not_found _ _ _ Hget Hnf).
    unfold Provision_userConfig. rewrite decide_True by auto.
    by rewrite Hdecode.
  - intros pvc cause Hget Hann Hraw Hdecode.
    unfold Bind. rewrite (instanceExists_found _ _ _ Hget), Hann.
    unfold Bind_userMount. rewrite decide_True by auto.
    by rewrite Hdecode.
Qed.

(** X17. [GetInstance] on a claim that is there reads the plan and the
    service identifier off its labels and nothing else.  Without a
    [plan-id] label (or without labels) it fails with the zero result;
    with a [plan-id] but no [service-id] label it fails and the result
    it returns already carries the plan identifier. *)
Theorem GetInstance_reads_labels b instanceID pvc :
  Get (cluster (KubeClient b)) (config.Namespace (Config b)) instanceID
    = inr pvc →
  (GetInstance b instanceID).1
  = match map_index (corev1.Labels pvc) "plan-id",
          map_index (corev1.Labels pvc) "service-id" with
    | None, _ =>
        (brokerapi.GetInstanceDetailsSpec.zero,
         Some (errors_New "plan-id label missing from pvc"))
    | Some planID, None =>
        ({| brokerapi.GetInstanceDetailsSpec.ServiceID := "";
            brokerapi.GetInstanceDetailsSpec.PlanID := planID;
            brokerapi.GetInstanceDetailsSpec.DashboardURL := "" |},
         Some (errors_New "service-id label missing from pvc"))
    | Some planID, Some serviceID =>
        ({| brokerapi.GetInstanceDetailsSpec.ServiceID := serviceID;
            brokerapi.GetInstanceDetailsSpec.PlanID := planID;
            brokerapi.GetInstanceDetailsSpec.DashboardURL := "" |},
         None)
    end.
Proof.
  intros Hget. unfold GetInstance. rewrite (instanceExists_found _ _ _ Hget).
  destruct (map_index _ "plan-id"); [|done].
  by destruct (map_index _ "service-id").
Qed.

End every_client.

(** ** Annotation keys *)

Lemma prefix_append p s :
  String.prefix p s = true ↔ ∃ rest, s = p +:+ rest.
Proof.
  revert s. induction p as [|c p IH]; intros [|c' s]; simpl.
  - split; [by exists ""|done].
  - split; [by eexists|done].
  - split; [done|by intros [rest ?]].
  - destruct (Ascii.ascii_dec c c') as [<-|Hne].
    + rewrite IH. split; intros [rest Hrest]; exists rest.
      * by rewrite Hrest.
      * by injection Hrest.
    + split; [done|]. intros [rest Hrest]. by injection Hrest.
Qed.

(** X9. Binding identifiers and annotation keys correspond one to one:
    two bindings never share a key, and [isBindingIDAnnotation] accepts
    exactly the keys that [bindingIDAnnotation] makes. *)
Theorem bindingIDAnnotation_keys :
  (∀ bindingID bindingID',
     bindingIDAnnotation bindingID = bindingIDAnnotation bindingID' →
     bindingID = bindingID')
  ∧ (∀ annotationKey,
       isBindingIDAnnotation annotationKey = true ↔
       ∃ bindingID, annotationKey = bindingIDAnnotation bindingID).
Proof.
  split.
  - intros bindingID bindingID' Hkey. unfold bindingIDAnnotation in Hkey.
    cbn in Hkey. by injection Hkey.
  - intros annotationKey. apply prefix_append.
Qed.

Lemma bindingIDAnnotation_inj bindingID bindingID' :
  bindingIDAnnotation bindingID = bindingIDAnnotation bindingID' →
  bindingID = bindingID'.
Proof.
  intros Hkey. unfold bindingIDAnnotation in Hkey. cbn in Hkey.
  by injection Hkey.
Qed.

(** ** Operations in sequence on the in-memory client *)

Section sequences.
Implicit Types (objects : fake.Clientset) (o : corev1.PersistentVolumeClaim).

Lemma tracker_find_app objects o ns name :
  fake.tracker_find (objects ++ [o]) ns name
  = match fake.tracker_find objects ns name with
    | Some found => Some found
    | None => if fake.is_object ns name o then Some o else None
    end.
Proof.
  induction objects as [|o' rest IH]; simpl; [done|].
  by destruct (fake.is_object ns name o').
Qed.

Lemma tracker_remove_app objects o ns name :
  fake.tracker_find objects ns name = None →
  fake.is_object ns name o = true →
  fake.tracker_remove (objects ++ [o]) ns name = Some objects.
Proof.
  intros Hfind His. induction objects as [|o' rest IH]; simpl in *.
  - by rewrite His.
  - destruct (fake.is_object ns name o'); [done|]. by rewrite IH.
Qed.

Lemma tracker_replace_app objects o new :
  fake.tracker_find objects (metav1.Namespace (corev1.ObjectMeta new))
    (corev1.Name new) = None →
  fake.is_object (metav1.Namespace (corev1.ObjectMeta new)) (corev1.Name new) o
    = true →
  fake.tracker_replace (objects ++ [o]) new = Some (objects ++ [new]).
Proof.
  intros Hfind His. induction objects as [|o' rest IH]; simpl in *.
  - by rewrite His.
  - destruct (fake.is_object _ _ o'); [done|]. by rewrite IH.
Qed.

Lemma Get_absent objects ns name err :
  Get objects ns name = inl err →
  fake.tracker_find objects ns name = None ∧ err = fake.NewNotFound name.
Proof.
  simpl. unfold fake.tracker_Get.
  destruct (fake.tracker_find objects ns name); [done|]. by intros [= <-].
Qed.

Context `{!Libraries}.
Implicit Types (b : KubeVolumeBroker fake.Clientset).

(** What a successful [Provision] has gone through, on any client. *)
Lemma Provision_success_inv {S} `{!PersistentVolumeClaimInterface S}
    (b : KubeVolumeBroker S) instanceID serviceDetails asyncAllowed spec k' :
  Provision b instanceID serviceDetails asyncAllowed = (spec, None, k') →
  ∃ plan accessMode quantity err,
    let ns := config.Namespace (Config b) in
    Provision_plan (config.Plans (config.ServiceConfiguration_ (Config b)))
      (brokerapi.ProvisionDetails.PlanID serviceDetails) = Some plan
    ∧ brokerapi.ProvisionDetails.PlanID serviceDetails ≠ ""
    ∧ Get (cluster (KubeClient b)) ns instanceID = inl err
    ∧ apierrors.IsNotFound (Some err) = true
    ∧ doCreate (after_Get (KubeClient b) ns instanceID) ns
        (Provision_claim instanceID serviceDetails plan accessMode quantity)
      = (None, k').
Proof.
  unfold Provision, instanceExists, doGet.
  fold (after_Get (KubeClient b) (config.Namespace (Config b)) instanceID).
  case_decide as Hid; [done|].
  destruct (Provision_plan _ _) as [plan|] eqn:Hplan; [|done].
  destruct (Get _ _ _) as [err|pvc] eqn:Hget; [|done].
  destruct (apierrors.IsNotFound (Some err)) eqn:Hnf; [|done].
  destruct (Provision_userConfig _) as [?|user]; [done|].
  case_decide; [done|].
  destruct (resource_ParseQuantity _) as [?|quantity]; [done|].
  destruct (doCreate _ _ _) as [[failure|] k''] eqn:Hcreate; [done|].
  intros [= <- <-]. by eexists plan, _, quantity, err.
Qed.

(** A successful [Provision] on the in-memory client appends the claim
    to the cluster. *)
Lemma Provision_stores b instanceID serviceDetails asyncAllowed spec k' :
  Provision b instanceID serviceDetails asyncAllowed = (spec, None, k') →
  ∃ pvc,
    let ns := config.Namespace (Config b) in
    cluster k' = cluster (KubeClient b) ++ [pvc]
    ∧ fake.tracker_find (cluster (KubeClient b)) ns instanceID = None
    ∧ fake.is_object ns instanceID pvc = true
    ∧ Get (cluster k') ns instanceID = inr pvc
    ∧ brokerapi.ProvisionDetails.PlanID serviceDetails ≠ ""
    ∧ is_Some (Provision_plan
                 (config.Plans (config.ServiceConfiguration_ (Config b)))
                 (brokerapi.ProvisionDetails.PlanID serviceDetails))
    ∧ corev1.Annotations pvc = None
    ∧ map_index (corev1.Labels pvc) "plan-id"
      = Some (brokerapi.ProvisionDetails.PlanID serviceDetails)
    ∧ map_index (corev1.Labels pvc) "service-id"
      = Some (brokerapi.ProvisionDetails.ServiceID serviceDetails).
Proof.
  intros Hrun.
  destruct (Provision_success_inv _ _ _ _ _ _ Hrun)
    as (plan & accessMode & quantity & err & Hplan & Hid & Hget & _ & Hcreate).
  apply Get_absent in Hget as [Hfind _].
  unfold doCreate in Hcreate. simpl in Hcreate.
  unfold fake.tracker_Create, fake.propagate in Hcreate. simpl in Hcreate.
  rewrite decide_True in Hcreate by done.
  unfold corev1.Name in Hcreate. simpl in Hcreate.
  rewrite Hfind in Hcreate. injection Hcreate as <-. simpl.
  eexists. split; [reflexivity|].
  assert (fake.is_object (config.Namespace (Config b)) instanceID
            {| corev1.ObjectMeta :=
                 {| metav1.Name := instanceID;
                    metav1.Namespace := config.Namespace (Config b);
                    metav1.Labels :=
                      corev1.Labels
                        (Provision_claim instanceID serviceDetails plan
                           accessMode quantity);
                    metav1.Annotations := None |};
               corev1.Spec :=
                 corev1.Spec
                   (Provision_claim instanceID serviceDetails plan accessMode
                      quantity) |} = true) as His.
  { apply is_object_true. by split. }
  split; [done|]. split; [exact His|].
  split.
  { unfold fake.tracker_Get. rewrite tracker_find_app, Hfind.
    match goal with
    | |- context [fake.is_object ?n ?i ?o] =>
        replace (fake.is_object n i o) with true
          by (symmetry; apply is_object_true; by split)
    end.
    done. }
  split; [done|]. split; [by eexists|]. split; [done|].
  pose proof (Provision_claim_labels instanceID serviceDetails plan accessMode
                quantity) as (Hservice & Hplan' & _).
  by split.
Qed.

(** X10. After a successful [Provision], [GetInstance] of the same
    instance succeeds and returns the plan and service identifiers of
    the request. *)
Theorem Provision_then_GetInstance b instanceID serviceDetails asyncAllowed
    spec k' :
  Provision b instanceID serviceDetails asyncAllowed = (spec, None, k') →
  GetInstance (on (Config b) k') instanceID
  = ({| brokerapi.GetInstanceDetailsSpec.ServiceID :=
          brokerapi.ProvisionDetails.ServiceID serviceDetails;
        brokerapi.GetInstanceDetailsSpec.PlanID :=
          brokerapi.ProvisionDetails.PlanID serviceDetails;
        brokerapi.GetInstanceDetailsSpec.DashboardURL := "" |},
     None, after_Get k' (config.Namespace (Config b)) instanceID).
Proof.
  intros Hrun.
  destruct (Provision_stores _ _ _ _ _ _ Hrun)
    as (pvc & _ & _ & _ & Hget & _ & _ & _ & Hplan & Hservice).
  unfold GetInstance.
  rewrite (instanceExists_found (on (Config b) k') _ _ Hget).
  by rewrite Hplan, Hservice.
Qed.

(** X11. After a successful [Provision], a [Deprovision] of the
    instance, with whatever details, succeeds and leaves the cluster as
    it was before the [Provision]; then [GetInstance] and [GetBinding]
    return [ErrInstanceDoesNotExist]. *)
Theorem Provision_then_Deprovision b instanceID bindingID serviceDetails
    deprovisionDetails asyncAllowed asyncAllowed' spec k' :
  Provision b instanceID serviceDetails asyncAllowed = (spec, None, k') →
  ∃ k'',
    Deprovision (on (Config b) k') instanceID deprovisionDetails asyncAllowed'
    = (brokerapi.DeprovisionServiceSpec.zero, None, k'')
    ∧ cluster k'' = cluster (KubeClient b)
    ∧ (GetInstance (on (Config b) k'') instanceID).1
      = (brokerapi.GetInstanceDetailsSpec.zero, Some ErrInstanceDoesNotExist)
    ∧ (GetBinding (on (Config b) k'') instanceID bindingID).1
      = (brokerapi.GetBindingSpec.zero, Some ErrInstanceDoesNotExist).
Proof.
  intros Hrun.
  destruct (Provision_stores _ _ _ _ _ _ Hrun)
    as (pvc & Hcluster & Hfind & His & Hget & _).
  unfold Deprovision.
  rewrite (instanceExists_found (on (Config b) k') _ _ Hget).
  unfold doDelete. simpl. unfold fake.tracker_Delete.
  rewrite Hcluster, (tracker_remove_app _ _ _ _ Hfind His).
  eexists. split; [reflexivity|]. split; [done|].
  assert (Get (cluster (KubeClient b)) (config.Namespace (Config b))
            instanceID = inl (fake.NewNotFound instanceID)) as Habsent.
  { simpl. unfold fake.tracker_Get. by rewrite Hfind. }
  unfold GetInstance, GetBinding.
  match goal with
  | |- context [instanceExists ?b' _] =>
      rewrite (instanceExists_not_found b' instanceID _ Habsent eq_refl)
  end.
  done.
Qed.

(** X12. After a successful [Provision], a second [Provision] of the
    same instance with the same details returns
    [ErrInstanceAlreadyExists] and leaves the cluster as the first one
    left it. *)
Theorem Provision_twice b instanceID serviceDetails asyncAllowed asyncAllowed'
    spec k' :
  Provision b instanceID serviceDetails asyncAllowed = (spec, None, k') →
  Provision (on (Config b) k') instanceID serviceDetails asyncAllowed'
  = (brokerapi.ProvisionedServiceSpec.zero, Some ErrInstanceAlreadyExists,
     after_Get k' (config.Namespace (Config b)) instanceID).
Proof.
  intros Hrun.
  destruct (Provision_stores _ _ _ _ _ _ Hrun)
    as (pvc & _ & _ & _ & Hget & Hid & [plan Hplan] & _).
  unfold Provision. rewrite decide_False by done. simpl. rewrite Hplan.
  by rewrite (instanceExists_found (on (Config b) k') _ _ Hget).
Qed.

Lemma map_len_0_index (m : GoMap) key : map_len m = 0 → map_index m key = None.
Proof.
  destruct m as [t|]; simpl; [|done].
  intros ->%map_size_empty_iff. apply lookup_empty.
Qed.

(** [GetBinding] on a claim that is there, by what the claim carries. *)
Lemma GetBinding_result {S} `{!PersistentVolumeClaimInterface S}
    (b : KubeVolumeBroker S) instanceID bindingID pvc :
  Get (cluster (KubeClient b)) (config.Namespace (Config b)) instanceID
    = inr pvc →
  (GetBinding b instanceID bindingID).1
  = match map_index (corev1.Annotations pvc) (bindingIDAnnotation bindingID),
          corev1.StorageClassName (corev1.Spec pvc) with
    | None, _ => (brokerapi.GetBindingSpec.zero, Some ErrBindingDoesNotExist)
    | Some _, None => (brokerapi.GetBindingSpec.zero, Some InvalidResourceState)
    | Some containerDir, Some storageClassName =>
        ({| brokerapi.GetBindingSpec.Credentials := None;
            brokerapi.GetBindingSpec.SyslogDrainURL := "";
            brokerapi.GetBindingSpec.RouteServiceURL := "";
            brokerapi.GetBindingSpec.VolumeMounts :=
              [volumeMount storageClassName containerDir (corev1.Name pvc)] |},
         None)
    end.
Proof.
  intros Hget. unfold GetBinding. rewrite (instanceExists_found _ _ _ Hget).
  case_decide as Hlen.
  - by rewrite (map_len_0_index _ _ Hlen).
  - destruct (map_index _ _); [|done].
    by destruct (corev1.StorageClassName _).
Qed.

(** What a successful [Unbind] has gone through, on any client. *)
Lemma Unbind_success_inv {S} `{!PersistentVolumeClaimInterface S}
    (b : KubeVolumeBroker S) instanceID bindingID details asyncAllowed spec k' :
  Unbind b instanceID bindingID details asyncAllowed = (spec, None, k') →
  ∃ pvc containerDir,
    Get (cluster (KubeClient b)) (config.Namespace (Config b)) instanceID
      = inr pvc
    ∧ map_index (corev1.Annotations pvc) (bindingIDAnnotation bindingID)
      = Some containerDir.
Proof.
  unfold Unbind, instanceExists, doGet.
  destruct (Get _ _ _) as [err|pvc] eqn:Hget.
  { by destruct (apierrors.IsNotFound (Some err)). }
  case_decide; [done|].
  destruct (map_index _ _) as [containerDir|] eqn:Hann; [|done].
  intros _. by exists pvc, containerDir.
Qed.

(** [Unbind] on the in-memory client, for a claim with the annotation:
    it succeeds and the claim is stored without it. *)
Lemma Unbind_stores b instanceID bindingID details asyncAllowed pvc
    containerDir :
  let ns := config.Namespace (Config b) in
  let pvc' :=
    corev1.set_Annotations pvc
      (map_delete (corev1.Annotations pvc) (bindingIDAnnotation bindingID)) in
  Get (cluster (KubeClient b)) ns instanceID = inr pvc →
  map_index (corev1.Annotations pvc) (bindingIDAnnotation bindingID)
    = Some containerDir →
  ∃ k',
    Unbind b instanceID bindingID details asyncAllowed
    = (brokerapi.UnbindSpec.zero, None, k')
    ∧ Get (cluster k') ns instanceID = inr pvc'.
Proof.
  intros ns pvc' Hget Hann.
  destruct (Get_names _ _ _ _ Hget) as [Hns Hname].
  destruct (Update_then_Get _ _ _ _ pvc' Hget Hns Hname)
    as (objects' & Hupdate & Hget').
  unfold Unbind. rewrite (instanceExists_found _ _ _ Hget), Hann.
  rewrite decide_False by (by eapply map_index_Some_len).
  fold ns pvc'. unfold doUpdate. rewrite after_Get_cluster, Hupdate.
  eexists. split; [reflexivity|done].
Qed.

(** A successful [Bind] on the in-memory client leaves the annotated
    claim in the cluster. *)
Lemma Bind_success_stored b instanceID bindingID details asyncAllowed binding
    k' :
  Bind b instanceID bindingID details asyncAllowed = (binding, None, k') →
  ∃ pvc userMount,
    let ns := config.Namespace (Config b) in
    Get (cluster (KubeClient b)) ns instanceID = inr pvc
    ∧ map_index (corev1.Annotations pvc) (bindingIDAnnotation bindingID) = None
    ∧ Bind_userMount (brokerapi.BindDetails.RawParameters details)
      = inr userMount
    ∧ is_Some (corev1.StorageClassName (corev1.Spec pvc))
    ∧ Get (cluster k') ns instanceID
      = inr (Bind_annotate pvc bindingID
               (Bind_containerDir userMount bindingID)).
Proof.
  intros Hbind.
  destruct (Bind_success_inv _ _ _ _ _ _ _ Hbind)
    as (pvc & userMount & storageClassName & Hget & Hann & Hmount & Hclass
        & _ & _).
  destruct (Bind_stores b instanceID bindingID details asyncAllowed pvc
              userMount Hget Hann Hmount) as (k2 & _ & Hget' & Hrun).
  rewrite Hbind, Hclass in Hrun. injection Hrun as _ <-.
  exists pvc, userMount. by repeat split.
Qed.

(** X13. After a successful [Bind], a second [Bind] of the same binding
    on the same instance, with whatever parameters, returns
    [ErrBindingAlreadyExists], sends only a [Get] and leaves the cluster
    as the first one left it. *)
Theorem Bind_twice b instanceID bindingID details details' asyncAllowed
    asyncAllowed' binding k' :
  Bind b instanceID bindingID details asyncAllowed = (binding, None, k') →
  Bind (on (Config b) k') instanceID bindingID details' asyncAllowed'
  = (brokerapi.Binding.zero, Some ErrBindingAlreadyExists,
     after_Get k' (config.Namespace (Config b)) instanceID).
Proof.
  intros Hbind.
  destruct (Bind_success_stored _ _ _ _ _ _ _ Hbind)
    as (pvc & userMount & _ & _ & _ & _ & Hget').
  unfold Bind. rewrite (instanceExists_found (on (Config b) k') _ _ Hget').
  destruct (Bind_annotate_meta pvc bindingID
              (Bind_containerDir userMount bindingID)) as (_ & _ & _ & Hann').
  by rewrite Hann'.
Qed.

(** X14. After a successful [Bind], [Unbind] of the same binding
    succeeds.  After it [GetBinding] and a second [Unbind] return
    [ErrBindingDoesNotExist], the claim has the annotations it had
    before the [Bind], and the same [Bind] succeeds again with the same
    result. *)
Theorem Bind_then_Unbind b instanceID bindingID details unbindDetails
    asyncAllowed binding k' :
  Bind b instanceID bindingID details asyncAllowed = (binding, None, k') →
  ∃ k2 pvc pvc2,
    let ns := config.Namespace (Config b) in
    Unbind (on (Config b) k') instanceID bindingID unbindDetails asyncAllowed
    = (brokerapi.UnbindSpec.zero, None, k2)
    ∧ Get (cluster (KubeClient b)) ns instanceID = inr pvc
    ∧ Get (cluster k2) ns instanceID = inr pvc2
    ∧ (∀ key, map_index (corev1.Annotations pvc2) key
              = map_index (corev1.Annotations pvc) key)
    ∧ (GetBinding (on (Config b) k2) instanceID bindingID).1
      = (brokerapi.GetBindingSpec.zero, Some ErrBindingDoesNotExist)
    ∧ (Unbind (on (Config b) k2) instanceID bindingID unbindDetails
         asyncAllowed).1
      = (brokerapi.UnbindSpec.zero, Some ErrBindingDoesNotExist)
    ∧ (Bind (on (Config b) k2) instanceID bindingID details asyncAllowed).1
      = (binding, None).
Proof.
  intros Hbind.
  destruct (Bind_success_stored _ _ _ _ _ _ _ Hbind)
    as (pvc & userMount & Hget & Hann & Hmount & [storageClassName Hclass]
        & Hget').
  set (containerDir := Bind_containerDir userMount bindingID) in *.
  destruct (Bind_annotate_meta pvc bindingID containerDir)
    as (Hns' & Hname' & Hspec' & Hann').
  destruct (Unbind_stores (on (Config b) k') instanceID bindingID
              unbindDetails asyncAllowed _ _ Hget' Hann')
    as (k2 & Hunbind & Hget2).
  set (pvc2 := corev1.set_Annotations _ _) in Hget2.
  assert (∀ key, map_index (corev1.Annotations pvc2) key
                 = map_index (corev1.Annotations pvc) key) as Hsame.
  { intros key. subst pvc2. simpl.
    destruct (decide (key = bindingIDAnnotation bindingID)) as [->|Hkey].
    - by rewrite lookup_delete_eq, Hann.
    - rewrite lookup_delete_ne, lookup_insert_ne by done.
      unfold corev1.Annotations. by destruct (metav1.Annotations _). }
  exists k2, pvc, pvc2. simpl.
  split; [exact Hunbind|]. split; [exact Hget|]. split; [exact Hget2|].
  split; [exact Hsame|].
  split.
  { rewrite (GetBinding_result (on (Config b) k2) _ _ _ Hget2).
    by rewrite Hsame, Hann. }
  split.
  { unfold Unbind.
    rewrite (instanceExists_found (on (Config b) k2) _ _ Hget2).
    rewrite Hsame, Hann. by case_decide. }
  assert (map_index (corev1.Annotations pvc2)
            (bindingIDAnnotation bindingID) = None) as Hann2
    by (by rewrite Hsame).
  destruct (Bind_stores (on (Config b) k2) instanceID bindingID details
              asyncAllowed pvc2 userMount Hget2 Hann2 Hmount)
    as (k3 & _ & _ & Hagain).
  destruct (Bind_stores b instanceID bindingID details asyncAllowed pvc
              userMount Hget Hann Hmount) as (k0 & _ & _ & Hfirst).
  rewrite Hbind, Hclass in Hfirst.
  rewrite Hagain. subst pvc2. simpl. rewrite Hclass. simpl.
  by injection Hfirst as -> _.
Qed.

(** X15. A [Bind] or an [Unbind] of one binding leaves the other
    bindings of the instance as they were: [GetBinding] of another
    binding returns after it what it returned before. *)
Theorem other_bindings_untouched b instanceID bindingID other :
  other ≠ bindingID →
  (∀ details asyncAllowed binding k',
     Bind b instanceID bindingID details asyncAllowed = (binding, None, k') →
     (GetBinding (on (Config b) k') instanceID other).1
     = (GetBinding b instanceID other).1)
  ∧ (∀ details asyncAllowed spec k',
       Unbind b instanceID bindingID details asyncAllowed = (spec, None, k') →
       (GetBinding (on (Config b) k') instanceID other).1
       = (GetBinding b instanceID other).1).
Proof.
  intros Hother.
  assert (bindingIDAnnotation other ≠ bindingIDAnnotation bindingID) as Hkey
    by (by intros ?%bindingIDAnnotation_inj).
  split.
  - intros details asyncAllowed binding k' Hbind.
    destruct (Bind_success_stored _ _ _ _ _ _ _ Hbind)
      as (pvc & userMount & Hget & _ & _ & _ & Hget').
    rewrite (GetBinding_result (on (Config b) k') _ _ _ Hget').
    rewrite (GetBinding_result b _ _ _ Hget).
    destruct pvc as [[name namespace labels [t|]] claimSpec];
      simpl; by rewrite lookup_insert_ne.
  - intros details asyncAllowed spec k' Hunbind.
    destruct (Unbind_success_inv _ _ _ _ _ _ _ Hunbind)
      as (pvc & containerDir & Hget & Hann).
    destruct (Unbind_stores b instanceID bindingID details asyncAllowed pvc
                containerDir Hget Hann) as (k2 & Hrun & Hget').
    rewrite Hunbind in Hrun. injection Hrun as _ <-.
    rewrite (GetBinding_result (on (Config b) k') _ _ _ Hget').
    rewrite (GetBinding_result b _ _ _ Hget).
    destruct pvc as [[name namespace labels [t|]] claimSpec]; [|done].
    simpl. by rewrite lookup_delete_ne.
Qed.

End sequences.

(** * The Kubernetes configuration getter *)

Section kube_config.
Import kubeconfig.
Context {Config E : Type} `{!Runtime E}.
Implicit Types (g : kubeConfigGetter Config E).

(** Case analysis over every path through [Get]. *)
Local Ltac Get_paths g :=
  unfold Get, Get_home, Get_read;
  repeat match goal with
    | |- context [decide _] => case_decide
    | |- context [inClusterConfig g] =>
        destruct (inClusterConfig g) as [?e|?c] eqn:?Hcluster
    | |- context [currentUser g] =>
        destruct (currentUser g) as [?e|?usr] eqn:?Huser
    | |- context [readFile g ?path] =>
        destruct (readFile g path) as [?e|?bytes] eqn:?Hread
    | |- context [restConfigFromKubeConfig g ?bytes] =>
        destruct (restConfigFromKubeConfig g bytes) as [?e|?c] eqn:?Hparse
    | |- context [defaultRESTConfig g] =>
        destruct (defaultRESTConfig g) as [?e|?c] eqn:?Hdefault
    | |- context [os_IsNotExist ?e] =>
        destruct (os_IsNotExist e) eqn:?Hexist
    end;
  simpl.

Local Ltac each_event H :=
  repeat (apply elem_of_cons in H as [->|H]); try by apply elem_of_nil in H.

Local Ltac which_event H :=
  rewrite ?elem_of_app, ?elem_of_cons, ?elem_of_nil in H;
  repeat destruct H as [H|H]; try done.

(** X18. With a path given, [Get] reads that file first and reads no
    other, and it consults neither the environment, nor the in-cluster
    configuration, nor the current user. *)
Theorem Get_explicit_path g customConfigPath :
  customConfigPath ≠ "" →
  head (Get g customConfigPath).2 = Some (ReadFile customConfigPath)
  ∧ ∀ event, event ∈ (Get g customConfigPath).2 →
      event ≠ InClusterConfig ∧ event ≠ CurrentUser
      ∧ (∀ key, event ≠ LookupEnv key)
      ∧ (∀ filename, event = ReadFile filename → filename = customConfigPath).
Proof.
  intros Hpath. unfold Get. rewrite decide_False by done.
  unfold Get_read.
  destruct (readFile g customConfigPath) as [e|bytes];
    [destruct (os_IsNotExist e); simpl;
     [destruct (defaultRESTConfig g)|]
    |destruct (restConfigFromKubeConfig g bytes)];
    (split; [done|]); intros event Hin; each_event Hin;
    repeat split; try done; by intros ? [= <-].
Qed.

(** X19. [Get] asks for the in-cluster configuration exactly when no
    path is given and both [KUBERNETES_SERVICE_HOST] and
    [KUBERNETES_SERVICE_PORT] are set; when it then gets one, that is
    the result, and no file is read. *)
Theorem Get_tries_in_cluster g customConfigPath :
  (InClusterConfig ∈ (Get g customConfigPath).2 ↔
   customConfigPath = ""
   ∧ is_Some (lookupEnv g "KUBERNETES_SERVICE_HOST")
   ∧ is_Some (lookupEnv g "KUBERNETES_SERVICE_PORT"))
  ∧ (∀ c, InClusterConfig ∈ (Get g customConfigPath).2 →
          inClusterConfig g = inr c →
          (Get g customConfigPath).1 = inr c
          ∧ ∀ event, event ∈ (Get g customConfigPath).2 →
                     is_ReadFile event = false).
Proof.
  split.
  - split.
    + intros Hin. revert Hin. Get_paths g; intros Hin; which_event Hin;
        naive_solver.
    + intros (-> & Hhost & Hport). Get_paths g;
        try match goal with Hnot : ¬ _ |- _ => by destruct Hnot end;
        repeat first [apply list_elem_of_here | apply list_elem_of_further].
  - intros c Hin Hc. revert Hin. Get_paths g; intros Hin;
      which_event Hin; try congruence.
    split; [congruence|]. intros event Hevent. by each_event Hevent.
Qed.

(** X20. Without a path, when the in-cluster configuration is out of
    reach (one of the two variables is not set, or the configuration
    does not exist), [Get] returns what reading [.kube/config] under
    the home of the current user returns: the same as if that path had
    been given. *)
Theorem Get_falls_back_to_home g usr :
  lookupEnv g "KUBERNETES_SERVICE_HOST" = None
  ∨ lookupEnv g "KUBERNETES_SERVICE_PORT" = None
  ∨ (∃ e, inClusterConfig g = inl e ∧ os_IsNotExist e = true) →
  currentUser g = inr usr →
  let home := filepath_Join [HomeDir usr; ".kube"; "config"] in
  (Get g "").1 = (Get_read g home).1
  ∧ (home ≠ "" → (Get g "").1 = (Get g home).1)
  ∧ CurrentUser ∈ (Get g "").2.
Proof.
  intros Hout Huser home.
  assert ((Get g "").1 = (Get_read g home).1
          ∧ CurrentUser ∈ (Get g "").2) as [Hresult Hevent].
  { unfold Get. rewrite decide_True by done.
    assert (∀ before, (Get_home g before).1 = (Get_read g home).1
                      ∧ CurrentUser ∈ (Get_home g before).2) as Hhome.
    { intros before. unfold Get_home. rewrite Huser. fold home.
      destruct (Get_read g home) as [result events]. simpl.
      split; [done|]. apply elem_of_app. right. apply list_elem_of_here. }
    case_decide as Henv; [|apply Hhome].
    destruct Henv as [[host Hhost] [port Hport]].
    destruct Hout as [Hnone|[Hnone|(e & Hcluster & Hexist)]]; [congruence..|].
    rewrite Hcluster, Hexist. simpl. apply Hhome. }
  split; [done|]. split; [|done].
  intros Hhome. rewrite Hresult. unfold Get at 1.
  by rewrite decide_False.
Qed.

(** X21. [Get] logs exactly one message when it returns a
    configuration and none when it fails, and it reads at most one
    file, on every path. *)
Theorem Get_logs_once_on_success g customConfigPath :
  List.length (filter (λ event, is_LogInfo event = true)
                 (Get g customConfigPath).2)
  = (if (Get g customConfigPath).1 is inr _ then 1 else 0)
  ∧ (List.length (filter (λ event, is_ReadFile event = true)
                    (Get g customConfigPath).2) ≤ 1)%nat.
Proof.
  Get_paths g; try (by split; [reflexivity|compute; lia]);
    destruct (Get_read _ _) eqn:Hread'; revert Hread'; Get_paths g;
    intros [= <- <-]; split; try reflexivity; compute; lia.
Qed.

(** X22. Every failure of [Get] is the failure of a collaborator: the
    error it wraps is the one that the last call it made returned. *)
Theorem Get_failure_is_last_call g customConfigPath failure :
  (Get g customConfigPath).1 = inl failure →
  ∃ event,
    last (Get g customConfigPath).2 = Some event
    ∧ failed_with g event (err failure).
Proof.
  Get_paths g; try done; intros [= <-]; eexists; (split; [reflexivity|done]).
Qed.

(** X23. [Get] turns to the default configuration only for a file that
    does not exist: when it asks for the default, the file it read
    before failed with a not-exist error, and it parsed nothing. *)
Theorem Get_default_only_for_missing_file g customConfigPath :
  DefaultRESTConfig ∈ (Get g customConfigPath).2 →
  ∃ filename e,
    ReadFile filename ∈ (Get g customConfigPath).2
    ∧ readFile g filename = inl e
    ∧ os_IsNotExist e = true
    ∧ (Get g customConfigPath).1
      = match defaultRESTConfig g with
        | inl e' => inl {| err := e' |}
        | inr c => inr c
        end
    ∧ ∀ configBytes,
        RESTConfigFromKubeConfig configBytes ∉ (Get g customConfigPath).2.
Proof.
  Get_paths g; intros Hin; which_event Hin;
    eexists _, _;
    (split; [repeat first [apply list_elem_of_here
                          | apply list_elem_of_further]|]);
    (split; [eassumption|]); (split; [done|]); (split; [done|]);
    intros configBytes Hparsed; by which_event Hparsed.
Qed.

End kube_config.

(** * Further properties of the catalog listing *)

Section listing_more.
Context {S : Type}.
Implicit Types (b : KubeVolumeBroker S) (h : Heap).

(** X16. For every catalog, the empty one included, [Services] returns
    no error and exactly one service: bindable, with the identifier,
    name and description of the configuration, the three tags and the
    volume-mount permission.  Its plans are the catalog's, one for one
    and in order, with their identifiers, names and descriptions, and
    each has a [Free] pointer that is not [nil].  The cells that were
    in the heap are left as they were. *)
Theorem Services_lists_catalog b h :
  let sc := config.ServiceConfiguration_ (Config b) in
  ∃ service h',
    Services b h = ([service], None, h')
    ∧ brokerapi.Service.ID service = config.ServiceID sc
    ∧ brokerapi.Service.Name service = config.ServiceName sc
    ∧ brokerapi.Service.Description service = config.Description_ sc
    ∧ brokerapi.Service.Bindable service = true
    ∧ brokerapi.Service.Tags service = ["eirini"; "kubernetes"; "storage"]
    ∧ brokerapi.Service.Requires service = [brokerapi.PermissionVolumeMount]
    ∧ brokerapi.ServicePlan.ID <$> brokerapi.Service.Plans service
      = config.ID <$> config.Plans sc
    ∧ brokerapi.ServicePlan.Name <$> brokerapi.Service.Plans service
      = config.Name <$> config.Plans sc
    ∧ brokerapi.ServicePlan.Description <$> brokerapi.Service.Plans service
      = config.Description <$> config.Plans sc
    ∧ (∀ plan, plan ∈ brokerapi.Service.Plans service →
               is_Some (brokerapi.ServicePlan.Free plan))
    ∧ take (List.length h) h' = h.
Proof.
  intros sc. unfold Services. fold sc.
  rewrite Services_range_spec by (by rewrite length_replicate).
  rewrite take_0, drop_replicate, Nat.sub_diag. simpl. rewrite app_nil_r.
  eexists _, _. split; [reflexivity|]. simpl.
  repeat split; try (rewrite <-list_fmap_compose; by apply list_fmap_ext).
  - intros plan (p & -> & _)%list_elem_of_fmap. by eexists.
  - destruct (last (config.Plans sc)) as [p|].
    + rewrite take_insert_ge by lia. by rewrite take_app_length.
    + by rewrite take_app_length.
Qed.

(** X24. In a catalog of one plan or more, every plan [Services]
    lists reads as its free flag the flag of the last plan of the
    catalog, whatever its own flag is: the [Free] pointers all address
    the one variable of the loop. *)
Theorem Services_free_flags_follow_last_plan b h plans final :
  config.Plans (config.ServiceConfiguration_ (Config b)) = plans ++ [final] →
  ∃ service h',
    Services b h = ([service], None, h')
    ∧ List.length (brokerapi.Service.Plans service)
      = Datatypes.S (List.length plans)
    ∧ ∀ plan, plan ∈ brokerapi.Service.Plans service →
              listed_free h' plan = Some (config.Free final).
Proof.
  intros Hplans.
  destruct (Services_spec b h) as (service & Hrun & Hlisted).
  rewrite Hplans in Hrun, Hlisted. rewrite last_snoc in Hrun. simpl in Hrun.
  eexists _, _. split; [exact Hrun|].
  rewrite Hlisted. split.
  { rewrite length_fmap, length_app. simpl. lia. }
  intros plan (p & -> & _)%list_elem_of_fmap.
  unfold listed_free. simpl.
  by rewrite lookup_app_r, Nat.sub_diag by lia.
Qed.

End listing_more.

(** * Examples for the further properties *)

Section more_examples.
Import scenario.

Lemma store_failure_is_reported_witness :
  let b := on cfg faulty.client in
  let k := after_Get faulty.client "eirini" "i1" in
  let cause :=
    errors_Wrap faulty.connection_refused "error listing persistent volumes" in
  (Get (cluster faulty.client) "eirini" "i1" = inl faulty.connection_refused
   ∧ apierrors.IsNotFound (Some faulty.connection_refused) = false)
  ∧ Provision b "i1" provision_p1 false
    = (brokerapi.ProvisionedServiceSpec.zero,
       Some (errors_Wrap cause "error provisioning"), k)
  ∧ GetBinding b "i1" "b1"
    = (brokerapi.GetBindingSpec.zero,
       Some (errors_Wrap cause "error getting binding"), k).
Proof.
  intros b k cause.
  pose proof (store_failure_is_reported b "i1" "b1" provision_p1
                deprovision_p1 bind_mnt unbind_p1 false
                faulty.connection_refused eq_refl eq_refl)
    as (Hprovision & _ & _ & _ & _ & Hbinding).
  split; [by split|]. split; [|exact Hbinding].
  apply Hprovision; [discriminate|by eexists].
Defined.

Lemma Bind_update_adds_one_annotation_witness :
  let b := on cfg (after_provision one_Gi) in
  (Get (cluster (after_provision one_Gi)) "eirini" "i1"
   = inr (claim one_Gi None)
   ∧ map_index (corev1.Annotations (claim one_Gi None))
       (bindingIDAnnotation "b1") = None
   ∧ Bind_userMount (brokerapi.BindDetails.RawParameters bind_mnt)
     = inr {| Directory := "/mnt" |})
  ∧ ∃ pvc',
      calls (Bind b "i1" "b1" bind_mnt false).2
      = calls (after_provision one_Gi)
        ++ [CallGet "eirini" "i1"; CallUpdate "eirini" pvc']
      ∧ corev1.Spec pvc' = corev1.Spec (claim one_Gi None)
      ∧ map_index (corev1.Annotations pvc') (bindingIDAnnotation "b1")
        = Some "/mnt"
      ∧ map_index (corev1.Annotations pvc') (bindingIDAnnotation "b2") = None.
Proof.
  intros b.
  assert (Get (cluster (KubeClient b)) (config.Namespace (Config b)) "i1"
          = inr (claim one_Gi None)) as Hget by reflexivity.
  assert (map_index (corev1.Annotations (claim one_Gi None))
            (bindingIDAnnotation "b1") = None) as Hann by reflexivity.
  assert (Bind_userMount (brokerapi.BindDetails.RawParameters bind_mnt)
          = inr {| Directory := "/mnt" |}) as Hmount by reflexivity.
  split; [by repeat split|].
  destruct (Bind_update_adds_one_annotation b "i1" "b1" bind_mnt false
              (claim one_Gi None) {| Directory := "/mnt" |} Hget Hann Hmount)
    as (pvc' & Hhandle & Hcalls & _ & _ & _ & Hspec & Hkeys & _).
  exists pvc'. rewrite Hhandle. split; [exact Hcalls|]. split; [exact Hspec|].
  split; [exact (Hkeys (bindingIDAnnotation "b1"))
         |exact (Hkeys (bindingIDAnnotation "b2"))].
Defined.

Lemma Unbind_update_removes_one_annotation_witness :
  let b := on cfg (after_bind one_Gi) in
  (Get (cluster (after_bind one_Gi)) "eirini" "i1"
   = inr (claim one_Gi (Some binding_b1))
   ∧ map_index (corev1.Annotations (claim one_Gi (Some binding_b1)))
       (bindingIDAnnotation "b1") = Some "/mnt")
  ∧ ∃ pvc',
      calls (Unbind b "i1" "b1" unbind_p1 false).2
      = calls (after_bind one_Gi)
        ++ [CallGet "eirini" "i1"; CallUpdate "eirini" pvc']
      ∧ corev1.Labels pvc' = corev1.Labels (claim one_Gi (Some binding_b1))
      ∧ map_index (corev1.Annotations pvc') (bindingIDAnnotation "b1") = None.
Proof.
  intros b.
  assert (Get (cluster (KubeClient b)) (config.Namespace (Config b)) "i1"
          = inr (claim one_Gi (Some binding_b1))) as Hget by reflexivity.
  assert (map_index (corev1.Annotations (claim one_Gi (Some binding_b1)))
            (bindingIDAnnotation "b1") = Some "/mnt") as Hann by reflexivity.
  split; [by split|].
  destruct (Unbind_update_removes_one_annotation b "i1" "b1" unbind_p1 false
              (claim one_Gi (Some binding_b1)) "/mnt" Hget Hann)
    as (pvc' & Hrun & Hcalls & _ & _ & Hlabels & _ & Hkeys).
  exists pvc'. rewrite Hrun. split; [exact Hcalls|]. split; [exact Hlabels|].
  exact (Hkeys (bindingIDAnnotation "b1")).
Defined.

Lemma scenario_provisioned :
  Provision (on cfg empty) "i1" provision_p1 false
  = (brokerapi.ProvisionedServiceSpec.zero, None, after_provision one_Gi).
Proof. vm_compute. reflexivity. Qed.

Lemma scenario_bound :
  Bind (on cfg (after_provision one_Gi)) "i1" "b1" bind_mnt false
  = (bound_b1, None, after_bind one_Gi).
Proof. vm_compute. reflexivity. Qed.

Lemma Bind_success_result_witness :
  Bind (on cfg (after_provision one_Gi)) "i1" "b1" bind_mnt false
  = (bound_b1, None, after_bind one_Gi)
  ∧ ∃ pvc storageClassName containerDir,
      Get (cluster (after_provision one_Gi)) "eirini" "i1" = inr pvc
      ∧ corev1.StorageClassName (corev1.Spec pvc) = Some storageClassName
      ∧ containerDir ≠ ""
      ∧ brokerapi.Binding.VolumeMounts bound_b1
        = [volumeMount storageClassName containerDir (corev1.Name pvc)].
Proof.
  split; [exact scenario_bound|].
  destruct (Bind_success_result (on cfg (after_provision one_Gi)) "i1" "b1"
              bind_mnt false bound_b1 (after_bind one_Gi) scenario_bound)
    as (pvc & storageClassName & containerDir & Hget & Hclass & Hdir & _ & _
        & Hbinding).
  exists pvc, storageClassName, containerDir.
  split; [exact Hget|]. split; [exact Hclass|]. split; [exact Hdir|].
  by rewrite Hbinding.
Defined.

Lemma undecodable_parameters_write_nothing_witness :
  Provision (on cfg empty) "i1" provision_p1_bad false
  = (brokerapi.ProvisionedServiceSpec.zero,
     Some (InvalidParameters reference.SyntaxError),
     after_Get empty "eirini" "i1")
  ∧ Bind (on (Config (on cfg empty)) (after_provision one_Gi)) "i1" "b1"
      bind_bad false
    = (brokerapi.Binding.zero, Some (InvalidParameters reference.SyntaxError),
       after_Get (after_provision one_Gi) "eirini" "i1").
Proof.
  assert (brokerapi.ProvisionDetails.PlanID provision_p1_bad ≠ "") as Hid
    by discriminate.
  assert (brokerapi.ProvisionDetails.RawParameters provision_p1_bad ≠ "")
    as Hraw by discriminate.
  assert (brokerapi.BindDetails.RawParameters bind_bad ≠ "") as Hraw'
    by discriminate.
  assert (is_Some (Provision_plan
                     (config.Plans (config.ServiceConfiguration_ cfg))
                     (brokerapi.ProvisionDetails.PlanID provision_p1_bad)))
    as Hplan by (by eexists).
  split.
  - destruct (undecodable_parameters_write_nothing (on cfg empty) "i1" "b1"
                provision_p1_bad bind_bad false) as (Hprovision & _).
    exact (Hprovision (fake.NewNotFound "i1") reference.SyntaxError Hid Hplan
             eq_refl eq_refl Hraw eq_refl).
  - destruct (undecodable_parameters_write_nothing
                (on cfg (after_provision one_Gi)) "i1" "b1" provision_p1_bad
                bind_bad false) as (_ & Hbind & _).
    exact (Hbind (claim one_Gi None) reference.SyntaxError eq_refl eq_refl
             Hraw' eq_refl).
Defined.

Lemma Provision_then_GetInstance_witness :
  Provision (on cfg empty) "i1" provision_p1 false
  = (brokerapi.ProvisionedServiceSpec.zero, None, after_provision one_Gi)
  ∧ GetInstance (on cfg (after_provision one_Gi)) "i1"
    = ({| brokerapi.GetInstanceDetailsSpec.ServiceID := "s1";
          brokerapi.GetInstanceDetailsSpec.PlanID := "p1";
          brokerapi.GetInstanceDetailsSpec.DashboardURL := "" |},
       None, after_Get (after_provision one_Gi) "eirini" "i1").
Proof.
  split; [exact scenario_provisioned|].
  exact (Provision_then_GetInstance (on cfg empty) "i1" provision_p1 false _ _
           scenario_provisioned).
Defined.

Lemma Provision_then_Deprovision_witness :
  Provision (on cfg empty) "i1" provision_p1 false
  = (brokerapi.ProvisionedServiceSpec.zero, None, after_provision one_Gi)
  ∧ ∃ k2,
      Deprovision (on cfg (after_provision one_Gi)) "i1" deprovision_p1 false
      = (brokerapi.DeprovisionServiceSpec.zero, None, k2)
      ∧ cluster k2 = []
      ∧ (GetInstance (on cfg k2) "i1").1
        = (brokerapi.GetInstanceDetailsSpec.zero, Some ErrInstanceDoesNotExist)
      ∧ (GetBinding (on cfg k2) "i1" "b1").1
        = (brokerapi.GetBindingSpec.zero, Some ErrInstanceDoesNotExist).
Proof.
  split; [exact scenario_provisioned|].
  exact (Provision_then_Deprovision (on cfg empty) "i1" "b1" provision_p1
           deprovision_p1 false false _ _ scenario_provisioned).
Defined.

Lemma Provision_twice_witness :
  Provision (on cfg empty) "i1" provision_p1 false
  = (brokerapi.ProvisionedServiceSpec.zero, None, after_provision one_Gi)
  ∧ Provision (on cfg (after_provision one_Gi)) "i1" provision_p1 true
    = (brokerapi.ProvisionedServiceSpec.zero, Some ErrInstanceAlreadyExists,
       after_Get (after_provision one_Gi) "eirini" "i1").
Proof.
  split; [exact scenario_provisioned|].
  exact (Provision_twice (on cfg empty) "i1" provision_p1 false true _ _
           scenario_provisioned).
Defined.

Lemma Bind_twice_witness :
  Bind (on cfg (after_provision one_Gi)) "i1" "b1" bind_mnt false
  = (bound_b1, None, after_bind one_Gi)
  ∧ Bind (on cfg (after_bind one_Gi)) "i1" "b1" bind_bad false
    = (brokerapi.Binding.zero, Some ErrBindingAlreadyExists,
       after_Get (after_bind one_Gi) "eirini" "i1").
Proof.
  split; [exact scenario_bound|].
  exact (Bind_twice (on cfg (after_provision one_Gi)) "i1" "b1" bind_mnt
           bind_bad false false _ _ scenario_bound).
Defined.

Lemma Bind_then_Unbind_witness :
  Bind (on cfg (after_provision one_Gi)) "i1" "b1" bind_mnt false
  = (bound_b1, None, after_bind one_Gi)
  ∧ ∃ k2 pvc pvc2,
      Unbind (on cfg (after_bind one_Gi)) "i1" "b1" unbind_p1 false
      = (brokerapi.UnbindSpec.zero, None, k2)
      ∧ Get (cluster (after_provision one_Gi)) "eirini" "i1" = inr pvc
      ∧ Get (cluster k2) "eirini" "i1" = inr pvc2
      ∧ (∀ key, map_index (corev1.Annotations pvc2) key
                = map_index (corev1.Annotations pvc) key)
      ∧ (GetBinding (on cfg k2) "i1" "b1").1
        = (brokerapi.GetBindingSpec.zero, Some ErrBindingDoesNotExist)
      ∧ (Unbind (on cfg k2) "i1" "b1" unbind_p1 false).1
        = (brokerapi.UnbindSpec.zero, Some ErrBindingDoesNotExist)
      ∧ (Bind (on cfg k2) "i1" "b1" bind_mnt false).1 = (bound_b1, None).
Proof.
  split; [exact scenario_bound|].
  exact (Bind_then_Unbind (on cfg (after_provision one_Gi)) "i1" "b1" bind_mnt
           unbind_p1 false _ _ scenario_bound).
Defined.

Lemma other_bindings_untouched_witness :
  "b2" ≠ "b1"
  ∧ (GetBinding (on cfg (after_bind one_Gi)) "i1" "b2").1
    = (GetBinding (on cfg (after_provision one_Gi)) "i1" "b2").1.
Proof.
  assert ("b2" ≠ "b1") as Hother by discriminate.
  split; [exact Hother|].
  destruct (other_bindings_untouched (on cfg (after_provision one_Gi)) "i1"
              "b1" "b2" Hother) as [Hbind _].
  exact (Hbind bind_mnt false _ _ scenario_bound).
Defined.

Lemma GetInstance_reads_labels_witness :
  Get (cluster (fake.client [bare_claim])) "eirini" "i1" = inr bare_claim
  ∧ (GetInstance (on cfg (fake.client [bare_claim])) "i1").1
    = (brokerapi.GetInstanceDetailsSpec.zero,
       Some (errors_New "plan-id label missing from pvc")).
Proof.
  split; [reflexivity|].
  exact (GetInstance_reads_labels (on cfg (fake.client [bare_claim])) "i1"
           bare_claim eq_refl).
Defined.

Lemma Services_free_flags_follow_last_plan_witness :
  config.Plans (config.ServiceConfiguration_ (catalog [p0; p1])) = [p0] ++ [p1]
  ∧ ∃ service h',
      Services (on (catalog [p0; p1]) empty) [] = ([service], None, h')
      ∧ List.length (brokerapi.Service.Plans service) = 2
      ∧ ∀ plan, plan ∈ brokerapi.Service.Plans service →
                listed_free h' plan = Some false.
Proof.
  split; [reflexivity|].
  exact (Services_free_flags_follow_last_plan (on (catalog [p0; p1]) empty) []
           [p0] p1 eq_refl).
Defined.

Lemma Get_explicit_path_witness :
  "/etc/kube/config" ≠ ""
  ∧ kubeconfig.Get kubeconfig.example.inside "/etc/kube/config"
    = (inr "from file",
       [kubeconfig.ReadFile "/etc/kube/config";
        kubeconfig.RESTConfigFromKubeConfig "apiVersion: v1";
        kubeconfig.LogInfo "Using kube config '/etc/kube/config'"])
  ∧ head (kubeconfig.Get kubeconfig.example.inside "/etc/kube/config").2
    = Some (kubeconfig.ReadFile "/etc/kube/config").
Proof.
  assert ("/etc/kube/config" ≠ "") as Hpath by discriminate.
  split; [exact Hpath|]. split; [reflexivity|].
  exact (proj1 (Get_explicit_path kubeconfig.example.inside
                  "/etc/kube/config" Hpath)).
Defined.

Lemma Get_falls_back_to_home_witness :
  (kubeconfig.lookupEnv kubeconfig.example.outside "KUBERNETES_SERVICE_HOST"
   = None
   ∧ kubeconfig.currentUser kubeconfig.example.outside
     = inr {| kubeconfig.HomeDir := "/home/eirini" |})
  ∧ kubeconfig.filepath_Join ["/home/eirini"; ".kube"; "config"]
    = "/home/eirini/.kube/config"
  ∧ (kubeconfig.Get kubeconfig.example.outside "").1
    = (kubeconfig.Get kubeconfig.example.outside
         "/home/eirini/.kube/config").1
  ∧ (kubeconfig.Get kubeconfig.example.outside "").1 = inr "default".
Proof.
  split; [by split|]. split; [reflexivity|].
  destruct (Get_falls_back_to_home kubeconfig.example.outside
              {| kubeconfig.HomeDir := "/home/eirini" |}
              (or_introl eq_refl) eq_refl) as (_ & Hsame & _).
  split; [|reflexivity].
  apply Hsame. discriminate.
Defined.

Lemma Get_failure_is_last_call_witness :
  (kubeconfig.Get kubeconfig.example.broken "").1
  = inl {| kubeconfig.err := "permission denied" |}
  ∧ ∃ event,
      last (kubeconfig.Get kubeconfig.example.broken "").2 = Some event
      ∧ kubeconfig.failed_with kubeconfig.example.broken event
          "permission denied".
Proof.
  split; [reflexivity|].
  exact (Get_failure_is_last_call kubeconfig.example.broken ""
           {| kubeconfig.err := "permission denied" |} eq_refl).
Defined.

Lemma Get_default_only_for_missing_file_witness :
  kubeconfig.DefaultRESTConfig ∈ (kubeconfig.Get kubeconfig.example.outside "").2
  ∧ ∃ filename e,
      kubeconfig.ReadFile filename
        ∈ (kubeconfig.Get kubeconfig.example.outside "").2
      ∧ kubeconfig.readFile kubeconfig.example.outside filename = inl e
      ∧ kubeconfig.os_IsNotExist e = true.
Proof.
  assert (kubeconfig.DefaultRESTConfig
            ∈ (kubeconfig.Get kubeconfig.example.outside "").2) as Hin.
  { vm_compute. repeat first [apply list_elem_of_here
                             | apply list_elem_of_further]. }
  split; [exact Hin|].
  destruct (Get_default_only_for_missing_file kubeconfig.example.outside ""
              Hin) as (filename & e & Hread & Hfile & Hexist & _).
  by exists filename, e.
Defined.

End more_examples.
